(** * ResolveMeQ: the autonomous action engine

    A shallow embedding of the ticket action executor ([tickets/tasks.py]),
    the rollback manager ([tickets/rollback.py]), the rollback and feedback
    endpoints ([tickets/views.py]) and the models they touch
    ([tickets/models.py]).

    The Django database is an explicit [DB] record, Python functions that
    read or write it are computations in a small state-and-exception monad
    [M], and every write or collaborator call may raise, as decided by a
    fault plan carried next to the database.  The user model is
    [base/models.py]; the decision policy ([autonomous_agent.py]) is not
    among the sources and is not modelled.

    The file has three parts: the embedding, the notions used to state the
    properties, and the properties with their supporting lemmas: C1 to
    C8 and C10 of the specification first, then further properties X1 to
    X23 of the same code. *)

From stdpp Require Import gmap strings list fin_maps pretty.
From Stdlib Require Import QArith.

Open Scope string_scope.
Open Scope Z_scope.
Open Scope list_scope.

(** ** JSON values *)

(** Values of the JSON fields [action_params] and [agent_response]. *)
Inductive json :=
  | JNull
  | JBool (b : bool)
  | JStr (s : string)
  | JNum (q : Q)
  | JList (l : list string).

(** Python truthiness of such a value. *)
Definition truthy (v : json) : bool :=
  match v with
  | JNull => false
  | JBool b => b
  | JStr s => negb (String.eqb s "")
  | JNum q => negb (Qeq_bool q 0)
  | JList l => match l with [] => false | _ => true end
  end.

(** [d.get(k, default)]. *)
Definition dict_get {V} (d : gmap string V) (k : string) (default : V) : V :=
  match d !! k with
  | Some v => v
  | None => default
  end.

(** [bool(d)] for a dict: the empty dict is falsy. *)
Definition dict_truthy {V} (d : gmap string V) : bool :=
  negb (bool_decide (d = ∅)).

(** A state snapshot ([before_state], [after_state]): a JSON object whose
    values are strings or null ([None]), which is what every executor
    writes. *)
Abbreviation snapshot := (gmap string (option string)).

(** [bool(x)] for an optional dict ([None] is Python's [None]). *)
Definition opt_dict_truthy {V} (d : option (gmap string V)) : bool :=
  match d with
  | Some m => dict_truthy m
  | None => false
  end.

(** Python truthiness of a string-or-None. *)
Definition str_truthy (v : option string) : bool :=
  match v with
  | Some s => negb (String.eqb s "")
  | None => false
  end.

(** An f-string: literal text and interpolated values, in order. *)
Inductive fragment :=
  | Lit (s : string)
  | Val (v : json).

(** ** Models ([tickets/models.py]) *)

(** A user ([base/models.py]) is referred to by its primary key, the
    UUID [id]; the handlers pass [str(ticket.user.id)] to the notification
    channel.  The user model has no field, property or attribute
    [user_id]. *)
Abbreviation uid := string.

Record Ticket := mkTicket {
  ticket_id : Z;
  user : uid;
  issue_type : string;
  status : string;
  description : option string;
  assigned_to : option uid;
  category : string;
  tags : list string;
  agent_response : option (gmap string json);
  agent_processed : bool;
}.

Definition with_status (s : string) (t : Ticket) : Ticket :=
  mkTicket (ticket_id t) (user t) (issue_type t) s (description t)
           (assigned_to t) (category t) (tags t) (agent_response t)
           (agent_processed t).

Definition with_assigned_to (a : option uid) (t : Ticket) : Ticket :=
  mkTicket (ticket_id t) (user t) (issue_type t) (status t) (description t)
           a (category t) (tags t) (agent_response t) (agent_processed t).

Record TicketInteraction := mkInteraction {
  ti_ticket : Z;
  ti_user : uid;
  interaction_type : string;
  content : list fragment;
}.

Record TicketResolution := mkResolution {
  tr_ticket : Z;
  autonomous_action : json;
  resolution_confirmed : option bool;
  user_feedback_text : string;
  satisfaction_score : option Z;
  followup_sent_at : option Z;
  response_received_at : option Z;
  reopened : bool;
  reopened_at : option Z;
  reopened_reason : string;
}.

(** The [was_successful] property. [None] is "unknown". *)
Definition was_successful (r : TicketResolution) : option bool :=
  if reopened r then Some false
  else if bool_decide (resolution_confirmed r = Some true) then Some true
  else match satisfaction_score r with
       | Some n => if negb (n =? 0) && (4 <=? n) then Some true else None
       | None => None
       end.

Record ActionHistory := mkAction {
  id : nat;
  ah_ticket : Z;
  action_type : string;
  action_params : gmap string json;
  executed_by : string;
  confidence_score : json;
  agent_reasoning : list fragment;
  rollback_possible : bool;
  rollback_steps : option (gmap string json);
  rolled_back : bool;
  rolled_back_at : option Z;
  rolled_back_by : option uid;
  rollback_reason : string;
  before_state : option snapshot;
  after_state : option snapshot;
}.

(** The four assignments that mark an entry as rolled back. *)
Definition mark_rolled_back (now : Z) (by_user : uid) (reason : string)
    (a : ActionHistory) : ActionHistory :=
  mkAction (id a) (ah_ticket a) (action_type a) (action_params a)
           (executed_by a) (confidence_score a) (agent_reasoning a)
           (rollback_possible a) (rollback_steps a)
           true (Some now) (Some by_user) reason
           (before_state a) (after_state a).

(** A knowledge-base article, keyed by its title in the store. *)
Record KbArticle := mkArticle {
  kb_description : option string;
  kb_agent_response : option (gmap string json);
  kb_tags : list string;
}.

(** Calls to the notification channel and to the task runner. *)
Inductive schedule_time :=
  | Countdown (seconds : Z)
  | Eta (t : json).

Inductive effect :=
  | Notify (fn : string) (recipient : uid) (ticket : Z)
           (params : gmap string json)
  | ApplyAsync (task : string) (ticket : Z)
               (params : option (gmap string json)) (at_time : schedule_time).

(** ** The database and the world around it *)

Record DB := mkDB {
  tickets : gmap Z Ticket;
  users : gset uid;
  interactions : list TicketInteraction;
  history : list ActionHistory;
  resolutions : gmap Z TicketResolution;
  kb_articles : gmap string KbArticle;
  solutions : gset Z;
  outbox : list effect;
}.

Definition set_tickets (f : gmap Z Ticket → gmap Z Ticket) (d : DB) : DB :=
  mkDB (f (tickets d)) (users d) (interactions d) (history d)
       (resolutions d) (kb_articles d) (solutions d) (outbox d).

Definition set_interactions
    (f : list TicketInteraction → list TicketInteraction) (d : DB) : DB :=
  mkDB (tickets d) (users d) (f (interactions d)) (history d)
       (resolutions d) (kb_articles d) (solutions d) (outbox d).

Definition set_history (f : list ActionHistory → list ActionHistory)
    (d : DB) : DB :=
  mkDB (tickets d) (users d) (interactions d) (f (history d))
       (resolutions d) (kb_articles d) (solutions d) (outbox d).

Definition set_resolutions
    (f : gmap Z TicketResolution → gmap Z TicketResolution) (d : DB) : DB :=
  mkDB (tickets d) (users d) (interactions d) (history d)
       (f (resolutions d)) (kb_articles d) (solutions d) (outbox d).

Definition set_kb_articles
    (f : gmap string KbArticle → gmap string KbArticle) (d : DB) : DB :=
  mkDB (tickets d) (users d) (interactions d) (history d)
       (resolutions d) (f (kb_articles d)) (solutions d) (outbox d).

Definition set_solutions (f : gset Z → gset Z) (d : DB) : DB :=
  mkDB (tickets d) (users d) (interactions d) (history d)
       (resolutions d) (kb_articles d) (f (solutions d)) (outbox d).

Definition set_outbox (f : list effect → list effect) (d : DB) : DB :=
  mkDB (tickets d) (users d) (interactions d) (history d)
       (resolutions d) (kb_articles d) (solutions d) (f (outbox d)).

(** The world: the database, the clock read by [timezone.now()], and the
    fault plan.  Each write to the database and each call to a collaborator
    consumes the head of [pending]; [true] makes that operation raise.  An
    exhausted plan means no further fault. *)
Record World := mkWorld {
  db : DB;
  clock : Z;
  pending : list bool;
}.

(** ** Computations *)

(** Exceptions: a missing row of the named model, a constraint violated
    by a write, an operation failed by the fault plan, an attribute that
    an object of the named class does not have, and a query on a keyword
    that is no field of the model. *)
Inductive exn :=
  | DoesNotExist (model : string)
  | IntegrityError
  | OperationFailed
  | AttributeError (class attribute : string)
  | FieldError (keyword : string).

Inductive result (A : Type) :=
  | Ok (a : A)
  | Raise (e : exn).
Arguments Ok {A} a.
Arguments Raise {A} e.

Definition M (A : Type) : Type := World → result A * World.

#[global] Instance M_ret : MRet M := λ A a w, (Ok a, w).

#[global] Instance M_bind : MBind M := λ A B k m w,
  match m w with
  | (Ok a, w') => k a w'
  | (Raise e, w') => (Raise e, w')
  end.

Definition raise {A} (e : exn) : M A := λ w, (Raise e, w).

(** [try: body except Exception: handler]. *)
Definition try_except {A} (body : M A) (handler : exn → M A) : M A :=
  λ w, match body w with
       | (Ok a, w') => (Ok a, w')
       | (Raise e, w') => handler e w'
       end.

Definition get_db : M DB := λ w, (Ok (db w), w).
Definition now : M Z := λ w, (Ok (clock w), w).
Definition modify_db (f : DB → DB) : M unit :=
  λ w, (Ok tt, mkWorld (f (db w)) (clock w) (pending w)).

(** A point where the plan may inject a failure. *)
Definition fallible : M unit :=
  λ w, match pending w with
       | true :: fs => (Raise OperationFailed, mkWorld (db w) (clock w) fs)
       | false :: fs => (Ok tt, mkWorld (db w) (clock w) fs)
       | [] => (Ok tt, w)
       end.

(** A write: it either raises and changes nothing, or is applied. *)
Definition write (f : DB → DB) : M unit := fallible;; modify_db f.

(** A call to an external collaborator, recorded in the outbox. *)
Definition call (e : effect) : M unit :=
  write (set_outbox (λ o, o ++ [e])).

(** ** The object manager *)

(** [Ticket.objects.get(ticket_id=tid)]. *)
Definition Ticket_get (tid : Z) : M Ticket :=
  d ← get_db;
  match tickets d !! tid with
  | Some t => mret t
  | None => raise (DoesNotExist "Ticket")
  end.

(** [User.objects.get(user_id=u)].  [user_id] is not a field of the user
    model, so the query cannot be built: the call raises [FieldError] for
    every argument, before the table is read. *)
Definition User_get (u : uid) : M uid :=
  raise (FieldError "user_id").

(** [Ticket.sync_to_knowledge_base]: create the article titled after the
    issue type, or overwrite its content and tags.  Either way one write
    reaches the store. *)
Definition sync_to_knowledge_base (t : Ticket) : M unit :=
  if String.eqb (status t) "resolved" && opt_dict_truthy (agent_response t)
  then
    let title := "Resolved: " +:+ issue_type t in
    let article :=
      mkArticle (description t) (agent_response t) (category t :: tags t) in
    write (set_kb_articles (λ k, <[title := article]> k))
  else mret tt.

(** [Solution.objects.get_or_create(ticket=t, defaults=...)]. *)
Definition Solution_get_or_create (t : Ticket) : M unit :=
  d ← get_db;
  if bool_decide (ticket_id t ∈ solutions d) then mret tt
  else write (set_solutions (λ s, {[ticket_id t]} ∪ s)).

(** [steps = "\n".join(steps)] for a list. *)
Definition join_if_list (steps : json) : json :=
  match steps with
  | JList l => JStr (String.concat "
" l)
  | _ => steps
  end.

(** The test in front of [Solution.objects.get_or_create]:
    [steps = r.get("resolution_steps") or r.get("steps")], joined when it
    is a non-empty list, is truthy.  A list whose only element is the
    empty string is truthy and joins to the empty string, which is not. *)
Definition has_steps (r : option (gmap string json)) : bool :=
  match r with
  | Some m =>
      let first := dict_get m "resolution_steps" JNull in
      let steps := if truthy first then first else dict_get m "steps" JNull in
      let steps := if truthy steps then join_if_list steps else steps in
      truthy steps
  | None => false
  end.

(** [Ticket.save]: the overridden save.  It reads the stored row, writes
    the ticket, and on a transition into "resolved" with an agent response
    syncs the knowledge base and ensures a Solution. *)
Definition Ticket_save (t : Ticket) : M unit :=
  orig ← Ticket_get (ticket_id t);
  let was_resolved := String.eqb (status orig) "resolved" in
  write (set_tickets (λ m, <[ticket_id t := t]> m));;
  if String.eqb (status t) "resolved" && opt_dict_truthy (agent_response t)
     && negb was_resolved
  then
    sync_to_knowledge_base t;;
    if has_steps (agent_response t) then Solution_get_or_create t
    else mret tt
  else mret tt.

(** [ticket.status = v] for a value read from a snapshot.  The column is
    NOT NULL: a ticket whose status is [None] cannot be saved, and nothing
    happens between the assignment and the save, so the model raises here. *)
Definition assign_status (v : option string) (t : Ticket) : M Ticket :=
  match v with
  | Some s => mret (with_status s t)
  | None => raise IntegrityError
  end.

(** [TicketInteraction.objects.create(...)]. *)
Definition TicketInteraction_create (t : Ticket) (u : uid) (ty : string)
    (c : list fragment) : M unit :=
  write (set_interactions (λ l, l ++ [mkInteraction (ticket_id t) u ty c])).

(** [ActionHistory.objects.get(id=i)]. *)
Definition find_action (i : nat) (h : list ActionHistory)
    : option ActionHistory :=
  List.find (λ a, Nat.eqb (id a) i) h.

Definition ActionHistory_get (i : nat) : M ActionHistory :=
  d ← get_db;
  match find_action i (history d) with
  | Some a => mret a
  | None => raise (DoesNotExist "ActionHistory")
  end.

(** The row update of [action_history.save()]: the row with this primary
    key is replaced, or the row is inserted when there is none. *)
Definition upsert_action (a : ActionHistory) (h : list ActionHistory)
    : list ActionHistory :=
  match find_action (id a) h with
  | Some _ => (λ b, if Nat.eqb (id b) (id a) then a else b) <$> h
  | None => h ++ [a]
  end.

Definition ActionHistory_save (a : ActionHistory) : M unit :=
  write (set_history (upsert_action a)).

(** A primary key no stored entry has (the source draws a random UUID). *)
Definition fresh_id (h : list ActionHistory) : nat :=
  S (foldr Nat.max 0%nat (id <$> h)).

(** [ActionHistory.objects.create(...)]; the model defaults fill the
    fields the caller does not give. *)
Definition ActionHistory_create (t : Ticket) (ty : string)
    (params : gmap string json) (confidence : json)
    (reasoning : list fragment) (possible : bool)
    (steps : gmap string json) (before after : snapshot) : M unit :=
  write (set_history (λ h,
    h ++ [mkAction (fresh_id h) (ticket_id t) ty params "autonomous_agent"
                   confidence reasoning possible (Some steps)
                   false None None "" (Some before) (Some after)])).

(** ** The rollback manager ([tickets/rollback.py]) *)

Module RollbackManager.

Definition rollback_auto_resolve (ticket : Ticket)
    (action_history : ActionHistory) (rollback_by : uid) (reason : string)
    : M bool :=
  try_except
    (ticket ←
       (if opt_dict_truthy (before_state action_history)
        then assign_status
               (dict_get (default ∅ (before_state action_history))
                         "status" (Some "in-progress")) ticket
        else assign_status (Some "in-progress") ticket);
     Ticket_save ticket;;
     TicketInteraction_create ticket rollback_by "agent_response"
       [Lit "🔄 Auto-resolution was rolled back.

Reason: "; Val (JStr reason); Lit "

Ticket reopened for manual review."];;
     t ← now;
     ActionHistory_save (mark_rolled_back t rollback_by reason action_history);;
     mret true)
    (λ _, mret false).

Definition rollback_assign_to_team (ticket : Ticket)
    (action_history : ActionHistory) (rollback_by : uid) (reason : string)
    : M bool :=
  try_except
    (ticket ←
       (if opt_dict_truthy (before_state action_history)
        then
          let prev_assignee_id :=
            dict_get (default ∅ (before_state action_history))
                     "assigned_to_id" None in
          if str_truthy prev_assignee_id
          then u ← User_get (default "" prev_assignee_id);
               mret (with_assigned_to (Some u) ticket)
          else mret (with_assigned_to None ticket)
        else mret (with_assigned_to None ticket));
     Ticket_save ticket;;
     TicketInteraction_create ticket rollback_by "agent_response"
       [Lit "🔄 Team assignment was rolled back.

Reason: "; Val (JStr reason)];;
     t ← now;
     ActionHistory_save (mark_rolled_back t rollback_by reason action_history);;
     mret true)
    (λ _, mret false).

Definition rollback_escalate (ticket : Ticket)
    (action_history : ActionHistory) (rollback_by : uid) (reason : string)
    : M bool :=
  try_except
    (ticket ←
       (if opt_dict_truthy (before_state action_history)
        then assign_status
               (dict_get (default ∅ (before_state action_history))
                         "status" (Some "new")) ticket
        else assign_status (Some "new") ticket);
     Ticket_save ticket;;
     TicketInteraction_create ticket rollback_by "agent_response"
       [Lit "🔄 Escalation was rolled back.

Reason: "; Val (JStr reason)];;
     t ← now;
     ActionHistory_save (mark_rolled_back t rollback_by reason action_history);;
     mret true)
    (λ _, mret false).

Definition ROLLBACK_SUPPORTED : list string :=
  ["AUTO_RESOLVE"; "ASSIGN_TO_TEAM"; "ESCALATE"; "SCHEDULE_FOLLOWUP"].

Definition can_rollback (action_type : string) : bool :=
  bool_decide (action_type ∈ ROLLBACK_SUPPORTED).

(** [action_history.ticket] follows the foreign key, then the action type
    selects the handler. *)
Definition execute_rollback (action_history : ActionHistory)
    (rollback_by : uid) (reason : string) : M bool :=
  let action_type := action_type action_history in
  ticket ← Ticket_get (ah_ticket action_history);
  if String.eqb action_type "AUTO_RESOLVE" then
    rollback_auto_resolve ticket action_history rollback_by reason
  else if String.eqb action_type "ASSIGN_TO_TEAM" then
    rollback_assign_to_team ticket action_history rollback_by reason
  else if String.eqb action_type "ESCALATE" then
    rollback_escalate ticket action_history rollback_by reason
  else mret false.

End RollbackManager.

(** [TicketResolution.objects.get_or_create(ticket=t, defaults=...)]: the
    row of the ticket and whether it was created. *)
Definition TicketResolution_get_or_create (t : Ticket) (action : json)
    : M (TicketResolution * bool) :=
  d ← get_db;
  match resolutions d !! ticket_id t with
  | Some r => mret (r, false)
  | None =>
      let r := mkResolution (ticket_id t) action None "" None None None
                            false None "" in
      write (set_resolutions (λ m, <[ticket_id t := r]> m));;
      mret (r, true)
  end.

(** [resolution.save()]. *)
Definition TicketResolution_save (r : TicketResolution) : M unit :=
  write (set_resolutions (λ m, <[tr_ticket r := r]> m)).

(** ** The action executor ([tickets/tasks.py]) *)

(** [ticket.agent_response.get(k, default)] guarded by the [isinstance]
    test of the handlers. *)
Definition response_get (t : Ticket) (k : string) (default : json) : json :=
  match agent_response t with
  | Some m => dict_get m k default
  | None => default
  end.

(** [ticket.assigned_to.user_id if ticket.assigned_to else None].  A user
    has no attribute [user_id], so for a ticket with an assignee the read
    raises [AttributeError]. *)
Definition assigned_to_id (t : Ticket) : M (option uid) :=
  match assigned_to t with
  | Some _ => raise (AttributeError "User" "user_id")
  | None => mret None
  end.

(** The snapshot [{status, assigned_to_id}] of a ticket. *)
Definition status_and_assignee (t : Ticket) : M snapshot :=
  a ← assigned_to_id t;
  mret ({[ "status" := Some (status t); "assigned_to_id" := a ]} : snapshot).

(** The snapshot [{status}] of a ticket. *)
Definition status_only (t : Ticket) : snapshot :=
  {[ "status" := Some (status t) ]}.

Definition handle_auto_resolve (ticket : Ticket)
    (params : gmap string json) : M bool :=
  before_state ← status_and_assignee ticket;
  let resolution_steps :=
    dict_get params "resolution_steps" (JStr "No steps provided") in
  let confidence := response_get ticket "confidence" (JNum 0) in
  let reasoning := response_get ticket "explanation" (JStr "") in
  let ticket := with_status "resolved" ticket in
  Ticket_save ticket;;
  after_state ← status_and_assignee ticket;
  ActionHistory_create ticket "AUTO_RESOLVE" params confidence
    [Val reasoning] true {[ "handler" := JStr "rollback_auto_resolve" ]}
    before_state after_state;;
  TicketInteraction_create ticket (user ticket) "agent_response"
    [Lit "ü§ñ Auto-resolved by AI Agent.

Resolution:
"; Val resolution_steps];;
  TicketResolution_get_or_create ticket (JStr "AUTO_RESOLVE");;
  call (Notify "notify_user_auto_resolution" (user ticket)
               (ticket_id ticket) params);;
  call (ApplyAsync "schedule_resolution_followup" (ticket_id ticket) None
                   (Countdown 86400));;
  mret true.

Definition handle_escalate (ticket : Ticket)
    (params : gmap string json) : M bool :=
  let before_state := status_only ticket in
  let ticket := with_status "escalated" ticket in
  Ticket_save ticket;;
  let after_state := status_only ticket in
  let confidence := response_get ticket "confidence" (JNum 0) in
  let reasoning :=
    dict_get params "escalation_reason" (JStr "Requires human attention") in
  ActionHistory_create ticket "ESCALATE" params confidence
    [Val reasoning] true {[ "handler" := JStr "rollback_escalate" ]}
    before_state after_state;;
  TicketInteraction_create ticket (user ticket) "agent_response"
    [Lit "‚ö†Ô∏è Escalated: "; Val reasoning];;
  call (Notify "notify_escalation" (user ticket) (ticket_id ticket) params);;
  mret true.

Definition handle_request_clarification (ticket : Ticket)
    (params : gmap string json) : M bool :=
  let ticket := with_status "pending_clarification" ticket in
  Ticket_save ticket;;
  TicketInteraction_create ticket (user ticket) "agent_clarification_request"
    [Lit "Requested clarification: ";
     Val (dict_get params "reason" (JStr "Need more information"))];;
  call (Notify "request_clarification_from_user" (user ticket)
               (ticket_id ticket) params);;
  mret true.

(** The snapshot [{assigned_to_id, status}] is the same dict as
    [{status, assigned_to_id}]. *)
Definition handle_assign_to_team (ticket : Ticket)
    (params : gmap string json) : M bool :=
  before_state ← status_and_assignee ticket;
  let assigned_team := dict_get params "assigned_team" (JStr "IT Support") in
  let ticket := with_status "assigned" ticket in
  Ticket_save ticket;;
  after_state ← status_and_assignee ticket;
  let confidence := response_get ticket "confidence" (JNum 0) in
  ActionHistory_create ticket "ASSIGN_TO_TEAM" params confidence
    [Lit "Assigned to "; Val assigned_team] true
    {[ "handler" := JStr "rollback_assign_to_team" ]}
    before_state after_state;;
  TicketInteraction_create ticket (user ticket) "agent_response"
    [Lit "üë• Assigned to "; Val assigned_team];;
  mret true.

Definition handle_schedule_followup (ticket : Ticket)
    (params : gmap string json) : M bool :=
  let followup_time := dict_get params "followup_time" JNull in
  (if truthy followup_time
   then call (ApplyAsync "check_ticket_followup" (ticket_id ticket)
                         (Some params) (Eta followup_time))
   else mret tt);;
  call (Notify "send_solution_with_followup" (user ticket)
               (ticket_id ticket) params);;
  mret true.

Definition handle_create_kb_article (ticket : Ticket)
    (params : gmap string json) : M bool :=
  sync_to_knowledge_base ticket;;
  mret true.

(** The follow-up task: escalate a ticket that is neither resolved nor
    closed.  Every exception is caught and logged. *)
Definition check_ticket_followup (ticket_id : Z)
    (original_params : gmap string json) : M unit :=
  try_except
    (ticket ← Ticket_get ticket_id;
     if negb (bool_decide (status ticket ∈ ["resolved"; "closed"]))
     then
       handle_escalate ticket
         {[ "escalation_reason" :=
              JStr "Solution did not resolve issue within expected timeframe";
            "priority" := JStr "high" ]};;
       mret tt
     else mret tt)
    (λ _, mret tt).

(** The 24-hour task scheduled by an automatic resolution: mark the
    follow-up as sent, once. *)
Definition with_followup_sent_at (t : Z) (r : TicketResolution)
    : TicketResolution :=
  mkResolution (tr_ticket r) (autonomous_action r) (resolution_confirmed r)
               (user_feedback_text r) (satisfaction_score r) (Some t)
               (response_received_at r) (reopened r) (reopened_at r)
               (reopened_reason r).

Definition schedule_resolution_followup (ticket_id : Z) : M unit :=
  try_except
    (ticket ← Ticket_get ticket_id;
     '(resolution, created) ←
        TicketResolution_get_or_create ticket
          (response_get ticket "recommended_action" (JStr "unknown"));
     if bool_decide (is_Some (followup_sent_at resolution)) then mret tt
     else
       t ← now;
       TicketResolution_save (with_followup_sent_at t resolution))
    (λ _, mret tt).

(** The members of the enum [AgentAction]. *)
Inductive AgentAction :=
  | AUTO_RESOLVE
  | ESCALATE
  | REQUEST_CLARIFICATION
  | ASSIGN_TO_TEAM
  | SCHEDULE_FOLLOWUP
  | CREATE_KB_ARTICLE.

#[global] Instance AgentAction_eq_dec : EqDecision AgentAction.
Proof. solve_decision. Defined.

Section Dispatch.

(** The string each member carries ([AgentAction.X.value]); the enum is
    declared outside the files at hand, so the strings are a parameter. *)
Variable value : AgentAction → string.

(** The dispatch task.  [AgentMetrics] only reports to the error tracker
    and never raises; it leaves no trace in the modelled state. *)
Definition execute_autonomous_action (ticket_id : Z) (action : string)
    (params : gmap string json) : M bool :=
  try_except
    (ticket ← Ticket_get ticket_id;
     if String.eqb action (value AUTO_RESOLVE) then
       handle_auto_resolve ticket params
     else if String.eqb action (value ESCALATE) then
       handle_escalate ticket params
     else if String.eqb action (value REQUEST_CLARIFICATION) then
       handle_request_clarification ticket params
     else if String.eqb action (value ASSIGN_TO_TEAM) then
       handle_assign_to_team ticket params
     else if String.eqb action (value SCHEDULE_FOLLOWUP) then
       handle_schedule_followup ticket params
     else if String.eqb action (value CREATE_KB_ARTICLE) then
       handle_create_kb_article ticket params
     else mret false)
    (λ _, mret false).

End Dispatch.

(** ** The endpoints ([tickets/views.py]) *)

Record Response := mkResponse {
  http_status : Z;
  body : list (string * json);
}.

(** [str(e)], as far as the model tells exceptions apart. *)
Definition exn_text (e : exn) : string :=
  match e with
  | DoesNotExist model => model +:+ " matching query does not exist."
  | IntegrityError => "IntegrityError"
  | OperationFailed => "OperationFailed"
  | AttributeError class attribute =>
      "'" +:+ class +:+ "' object has no attribute '" +:+ attribute +:+ "'"
  | FieldError keyword =>
      "Cannot resolve keyword '" +:+ keyword +:+ "' into field."
  end.

(** What [rollback_action] reads of its request: the authenticated user,
    the two attributes of the permission test and the optional reason. *)
Record RollbackRequest := mkRollbackRequest {
  req_user : uid;
  is_staff : bool;
  has_role : bool;
  req_reason : option string;
}.

(** The rollback endpoint (the rate limit in front of it is not part of
    the model). *)
Definition rollback_action (request : RollbackRequest)
    (action_history_id : nat) : M Response :=
  if negb (is_staff request) && negb (has_role request) then
    mret (mkResponse 403
            [("error", JStr "Only admins and managers can rollback actions")])
  else
    try_except
      (action_history ← ActionHistory_get action_history_id;
       if rolled_back action_history then
         mret (mkResponse 400
                 [("error", JStr "This action was already rolled back")])
       else if negb (RollbackManager.can_rollback (action_type action_history))
       then
         mret (mkResponse 400
                 [("error", JStr ("Action type " +:+ action_type action_history
                                  +:+ " does not support rollback"))])
       else
         let reason := default "Manual rollback by admin" (req_reason request) in
         success ← RollbackManager.execute_rollback action_history
                     (req_user request) reason;
         if success : bool then
           mret (mkResponse 200
                   [("message", JStr "Action rolled back successfully");
                    ("ticket_id", JNum (inject_Z (ah_ticket action_history)));
                    ("action_type", JStr (action_type action_history));
                    ("rollback_reason", JStr reason)])
         else
           mret (mkResponse 500 [("error", JStr "Rollback failed")]))
      (λ e, match e with
            | DoesNotExist "ActionHistory" =>
                mret (mkResponse 404 [("error", JStr "Action history not found")])
            | _ =>
                mret (mkResponse 500 [("error", JStr "Rollback failed");
                                      ("details", JStr (exn_text e))])
            end).

(** The body of a feedback request: [None] is a key that is absent (or
    null, for the first two). *)
Record Feedback := mkFeedback {
  fb_resolution_confirmed : option bool;
  fb_satisfaction_score : option Z;
  fb_feedback_text : option string;
}.

Definition json_of_confirmed (c : option bool) : json :=
  match c with
  | Some b => JBool b
  | None => JNull
  end.

(** The three assignments of the reopening branch. *)
Definition reopen (t : Z) (reason : string) (r : TicketResolution)
    : TicketResolution :=
  mkResolution (tr_ticket r) (autonomous_action r) (resolution_confirmed r)
               (user_feedback_text r) (satisfaction_score r)
               (followup_sent_at r) (response_received_at r)
               true (Some t) reason.

(** The four assignments that record the feedback. *)
Definition record_feedback (data : Feedback) (t : Z) (r : TicketResolution)
    : TicketResolution :=
  mkResolution (tr_ticket r) (autonomous_action r)
               (fb_resolution_confirmed data)
               (default "" (fb_feedback_text data))
               (fb_satisfaction_score data)
               (followup_sent_at r) (Some t)
               (reopened r) (reopened_at r) (reopened_reason r).

Definition submit_resolution_feedback (data : Feedback) (ticket_id : Z)
    : M Response :=
  try_except
    (ticket ← Ticket_get ticket_id;
     '(resolution, created) ←
        TicketResolution_get_or_create ticket (JStr "MANUAL");
     t ← now;
     let resolution := record_feedback data t resolution in
     resolution ←
       (if bool_decide (resolution_confirmed resolution = Some false) then
          t ← now;
          let resolution :=
            reopen t (default "User reported issue not resolved"
                              (fb_feedback_text data)) resolution in
          Ticket_save (with_status "escalated" ticket);;
          mret resolution
        else mret resolution);
     TicketResolution_save resolution;;
     mret (mkResponse 200
             [("message", JStr "Feedback received successfully");
              ("ticket_id", JNum (inject_Z ticket_id));
              ("resolution_confirmed",
               json_of_confirmed (resolution_confirmed resolution));
              ("ticket_reopened", JBool (reopened resolution))]))
    (λ e, match e with
          | DoesNotExist "Ticket" =>
              mret (mkResponse 404 [("error", JStr "Ticket not found")])
          | _ =>
              mret (mkResponse 500 [("error", JStr "Failed to submit feedback");
                                    ("details", JStr (exn_text e))])
          end).

(** [get_object_or_404(Ticket, ticket_id=...)].  The three endpoints below
    do not catch what it raises for a missing ticket: the exception leaves
    the view, and the framework answers it with 404. *)
Definition get_ticket_or_404 (ticket_id : Z) : M Ticket :=
  Ticket_get ticket_id.

(** The manual escalation endpoint. *)
Definition escalate_ticket (ticket_id : Z) : M Response :=
  ticket ← get_ticket_or_404 ticket_id;
  let ticket := with_status "escalated" ticket in
  Ticket_save ticket;;
  TicketInteraction_create ticket (user ticket) "user_message"
    [Lit "Ticket escalated by user."];;
  mret (mkResponse 200 [("message", JStr "Ticket escalated.")]).

(** The manual status endpoint; [status_val] is the [status] key of the
    body, [None] when it is absent. *)
Definition update_ticket_status (status_val : option string) (ticket_id : Z)
    : M Response :=
  ticket ← get_ticket_or_404 ticket_id;
  if negb (str_truthy status_val) then
    mret (mkResponse 400 [("error", JStr "status is required.")])
  else
    let status_val := default "" status_val in
    let ticket := with_status status_val ticket in
    Ticket_save ticket;;
    TicketInteraction_create ticket (user ticket) "user_message"
      [Lit "Status updated to "; Val (JStr status_val); Lit "."];;
    mret (mkResponse 200
            [("message",
              JStr ("Ticket status updated to " +:+ status_val +:+ "."))]).

(** The bulk endpoint.  [filter(ticket_id__in=ids).update(status=...)] is
    one statement on the table: it goes through neither [Ticket.save] nor
    any other code of the model. *)
Definition bulk_update_tickets (ids : list Z) (status_val : option string)
    : M Response :=
  if negb (bool_decide (ids ≠ [])) || negb (str_truthy status_val) then
    mret (mkResponse 400
            [("error", JStr "ticket_ids and status are required.")])
  else
    let status_val := default "" status_val in
    write (set_tickets (λ m,
      (λ t, if bool_decide (ticket_id t ∈ ids)
            then with_status status_val t else t) <$> m));;
    mret (mkResponse 200
            [("message",
              JStr ("Updated " +:+ pretty (length ids) +:+ " tickets to "
                    +:+ status_val +:+ "."))]).

(** * Notions used to state the properties *)

(** ** Fault plans and frames *)

(** [quiet l l']: the plan went from [l] to [l'] without a fault firing,
    that is, what was consumed of [l] was all [false]. *)
Definition quiet (l l' : list bool) : Prop :=
  ∃ n, l = replicate n false ++ l'.

(** What a save may touch: the ticket row, the knowledge base and the
    solutions; nothing else. *)
Definition save_frame (w w' : World) : Prop :=
  clock w' = clock w
  ∧ users (db w') = users (db w)
  ∧ interactions (db w') = interactions (db w)
  ∧ history (db w') = history (db w)
  ∧ resolutions (db w') = resolutions (db w)
  ∧ outbox (db w') = outbox (db w).

(** The status stored for a ticket. *)
Definition stored_status (tid : Z) (w : World) : option string :=
  status <$> tickets (db w) !! tid.

(** ** The shape of a rollback handler

    The three handlers differ in how they restore the ticket in memory and
    in the text of the interaction; what follows the restore is the same
    sequence of writes. *)

(** The writes after the restore. *)
Definition commit_rollback (ticket : Ticket) (a : ActionHistory)
    (by_user : uid) (reason : string) (msg : list fragment) : M bool :=
  Ticket_save ticket;;
  TicketInteraction_create ticket by_user "agent_response" msg;;
  t ← now;
  ActionHistory_save (mark_rolled_back t by_user reason a);;
  mret true.

(** A handler: restore, commit, and turn every exception into [False]. *)
Definition rollback_with (restore : M Ticket) (a : ActionHistory)
    (by_user : uid) (reason : string) (msg : list fragment) : M bool :=
  try_except (t ← restore; commit_rollback t a by_user reason msg)
             (λ _, mret false).

(** What a handler guarantees, for every fault plan.  [ro] is the result
    of the restore step, which reads the world and leaves it alone. *)
Record rollback_outcome (ro : result Ticket) (a : ActionHistory)
    (by_user : uid) (reason : string) (msg : list fragment)
    (w : World) (b : bool) (w' : World) : Prop := {
  ro_clock : clock w' = clock w;
  ro_users : users (db w') = users (db w);
  ro_resolutions : resolutions (db w') = resolutions (db w);
  ro_outbox : outbox (db w') = outbox (db w);
  ro_done : b = true →
    ∃ t, ro = Ok t
      ∧ tickets (db w') = <[ticket_id t := t]> (tickets (db w))
      ∧ interactions (db w') =
          interactions (db w)
          ++ [mkInteraction (ticket_id t) by_user "agent_response" msg]
      ∧ history (db w') =
          upsert_action (mark_rolled_back (clock w) by_user reason a)
                        (history (db w));
  ro_failed : b = false →
    history (db w') = history (db w)
    ∧ (tickets (db w') = tickets (db w)
       ∨ ∃ t, ro = Ok t
           ∧ tickets (db w') = <[ticket_id t := t]> (tickets (db w)));
  ro_first_write : hd false (pending w) = true → b = false ∧ db w' = db w;
  ro_no_restore : (∀ t, ro ≠ Ok t) → b = false ∧ w' = w;
  ro_clean : pending w = [] → (∃ t, ro = Ok t) → b = true;
  ro_quiet : b = true → quiet (pending w) (pending w');
}.

(** The status a handler writes: the snapshot's, or the default when the
    snapshot is missing, empty or has no status. *)
Definition snapshot_status (dflt : string) (a : ActionHistory)
    : option string :=
  if opt_dict_truthy (before_state a)
  then dict_get (default ∅ (before_state a)) "status" (Some dflt)
  else Some dflt.

(** The assignee a handler looks up, if any. *)
Definition snapshot_assignee (a : ActionHistory) : option uid :=
  if opt_dict_truthy (before_state a)
  then
    let prev := dict_get (default ∅ (before_state a)) "assigned_to_id" None in
    if str_truthy prev then prev else None
  else None.

(** The restore step of [rollback_assign_to_team]. *)
Definition restore_assignee (a : ActionHistory) (ticket : Ticket) : M Ticket :=
  match snapshot_assignee a with
  | Some u => u ← User_get u; mret (with_assigned_to (Some u) ticket)
  | None => mret (with_assigned_to None ticket)
  end.

(** The texts of the three interactions. *)
Definition auto_resolve_text (reason : string) : list fragment :=
  [Lit "🔄 Auto-resolution was rolled back.

Reason: "; Val (JStr reason); Lit "

Ticket reopened for manual review."].

Definition assign_text (reason : string) : list fragment :=
  [Lit "🔄 Team assignment was rolled back.

Reason: "; Val (JStr reason)].

Definition escalate_text (reason : string) : list fragment :=
  [Lit "🔄 Escalation was rolled back.

Reason: "; Val (JStr reason)].

(** What [assign_status] returns. *)
Definition status_result (v : option string) (ticket : Ticket)
    : result Ticket :=
  match v with
  | Some s => Ok (with_status s ticket)
  | None => Raise IntegrityError
  end.

(** What [restore_assignee] returns: a previous assignee is never found,
    because the lookup raises. *)
Definition assignee_result (a : ActionHistory) (ticket : Ticket)
    : result Ticket :=
  match snapshot_assignee a with
  | Some u => Raise (FieldError "user_id")
  | None => Ok (with_assigned_to None ticket)
  end.

(** The result of the restore step selected by the action type; [None]
    when the type has no handler. *)
Definition restore_result (a : ActionHistory) (t : Ticket)
    : option (result Ticket) :=
  if String.eqb (action_type a) "AUTO_RESOLVE" then
    Some (status_result (snapshot_status "in-progress" a) t)
  else if String.eqb (action_type a) "ASSIGN_TO_TEAM" then
    Some (assignee_result a t)
  else if String.eqb (action_type a) "ESCALATE" then
    Some (status_result (snapshot_status "new" a) t)
  else None.

(** The interaction text selected by the action type. *)
Definition rollback_text (a : ActionHistory) (reason : string)
    : list fragment :=
  if String.eqb (action_type a) "AUTO_RESOLVE" then auto_resolve_text reason
  else if String.eqb (action_type a) "ASSIGN_TO_TEAM" then assign_text reason
  else escalate_text reason.

(** The refusal of a second rollback. *)
Definition already_rolled_back : Response :=
  mkResponse 400 [("error", JStr "This action was already rolled back")].

(** ** What the executors record *)

(** The snapshot [{status, assigned_to_id}] of a ticket without
    assignee, the only one the executors can take. *)
Definition unassigned_snapshot (s : string) : snapshot :=
  {[ "status" := Some s; "assigned_to_id" := None ]}.

(** The entry [handle_auto_resolve] records. *)
Definition auto_resolve_entry (h : list ActionHistory) (ticket : Ticket)
    (params : gmap string json) : ActionHistory :=
  mkAction (fresh_id h) (ticket_id ticket) "AUTO_RESOLVE" params
    "autonomous_agent" (response_get ticket "confidence" (JNum 0))
    [Val (response_get ticket "explanation" (JStr ""))] true
    (Some {[ "handler" := JStr "rollback_auto_resolve" ]})
    false None None ""
    (Some (unassigned_snapshot (status ticket)))
    (Some (unassigned_snapshot "resolved")).

(** The effect of [get_or_create] on the resolution rows. *)
Definition ensure_resolution (tid : Z) (action : json)
    (m : gmap Z TicketResolution) : gmap Z TicketResolution :=
  match m !! tid with
  | Some _ => m
  | None => <[tid := mkResolution tid action None "" None None None
                                   false None ""]> m
  end.

(** The handler the dispatch task runs for a member of the enum. *)
Definition handler_of (a : AgentAction)
    : Ticket → gmap string json → M bool :=
  match a with
  | AUTO_RESOLVE => handle_auto_resolve
  | ESCALATE => handle_escalate
  | REQUEST_CLARIFICATION => handle_request_clarification
  | ASSIGN_TO_TEAM => handle_assign_to_team
  | SCHEDULE_FOLLOWUP => handle_schedule_followup
  | CREATE_KB_ARTICLE => handle_create_kb_article
  end.

(** The parameters with which the follow-up escalates. *)
Definition followup_params : gmap string json :=
  {[ "escalation_reason" :=
       JStr "Solution did not resolve issue within expected timeframe";
     "priority" := JStr "high" ]}.

(** The entry [handle_escalate] records. *)
Definition escalate_entry (h : list ActionHistory) (ticket : Ticket)
    (params : gmap string json) : ActionHistory :=
  mkAction (fresh_id h) (ticket_id ticket) "ESCALATE" params
    "autonomous_agent" (response_get ticket "confidence" (JNum 0))
    [Val (dict_get params "escalation_reason"
                   (JStr "Requires human attention"))] true
    (Some {[ "handler" := JStr "rollback_escalate" ]})
    false None None ""
    (Some (status_only ticket))
    (Some (status_only (with_status "escalated" ticket))).

(** The resolution row the feedback endpoint starts from: the stored one,
    or the one [get_or_create] makes for a MANUAL resolution. *)
Definition feedback_row (tid : Z) (m : gmap Z TicketResolution)
    : TicketResolution :=
  match m !! tid with
  | Some r => r
  | None => mkResolution tid (JStr "MANUAL") None "" None None None
                         false None ""
  end.

(** ** Concrete worlds, after the tests of the repository *)

(** The resolved ticket of the rollback tests. *)
Definition ticket1 : Ticket :=
  mkTicket 1 "testuser" "software (high)" "resolved" (Some "App crash")
           None "software" [] None false.

(** Its AUTO_RESOLVE entry, with the snapshots the tests give it. *)
Definition entry1 : ActionHistory :=
  mkAction 1 1 "AUTO_RESOLVE" ∅ "autonomous_agent" (JNum 0.75) [] false None
           false None None ""
           (Some {[ "status" := Some "in_progress" ]})
           (Some {[ "status" := Some "resolved" ]}).

(** A database holding that ticket and the given entries. *)
Definition db1 (entries : list ActionHistory) : DB :=
  mkDB {[ 1 := ticket1 ]} {[ "testuser"; "admin" ]} [] entries ∅ ∅ ∅ [].

Definition world1 (entries : list ActionHistory) (faults : list bool)
    : World :=
  mkWorld (db1 entries) 1000 faults.

(** An AUTO_RESOLVE entry without snapshot. *)
Definition entry_no_snapshot : ActionHistory :=
  mkAction 1 1 "AUTO_RESOLVE" ∅ "autonomous_agent" (JNum 0.75) [] false None
           false None None "" None None.

(** An AUTO_RESOLVE entry that is already rolled back, on a ticket that
    was resolved again since. *)
Definition entry_rolled_back : ActionHistory :=
  mark_rolled_back 900 "admin" "Incorrect resolution" entry1.

(** An ASSIGN_TO_TEAM entry as [handle_assign_to_team] records it for a
    new, unassigned ticket. *)
Definition entry_assign : ActionHistory :=
  mkAction 1 1 "ASSIGN_TO_TEAM" ∅ "autonomous_agent" (JNum 0.6)
           [Lit "Assigned to "; Val (JStr "IT Support")] true
           (Some {[ "handler" := JStr "rollback_assign_to_team" ]})
           false None None ""
           (Some {[ "status" := Some "new"; "assigned_to_id" := None ]})
           (Some {[ "status" := Some "assigned"; "assigned_to_id" := None ]}).

(** That ticket, later given to an agent by hand. *)
Definition ticket_assigned : Ticket :=
  mkTicket 1 "testuser" "printer (medium)" "assigned"
           (Some "Printer not working") (Some "admin") "printer" [] None true.

Definition world_assigned : World :=
  mkWorld (mkDB {[ 1 := ticket_assigned ]} {[ "testuser"; "admin" ]} []
                [entry_assign] ∅ ∅ ∅ []) 1000 [].

(** An ASSIGN_TO_TEAM entry whose snapshot names the requester as the
    previous assignee, and the world in which the ticket has since been
    given to the administrator. *)
Definition entry_assign_prev : ActionHistory :=
  mkAction 1 1 "ASSIGN_TO_TEAM" ∅ "autonomous_agent" (JNum 0.6)
           [Lit "Assigned to "; Val (JStr "IT Support")] true
           (Some {[ "handler" := JStr "rollback_assign_to_team" ]})
           false None None ""
           (Some {[ "status" := Some "new";
                    "assigned_to_id" := Some "testuser" ]})
           (Some {[ "status" := Some "assigned";
                    "assigned_to_id" := Some "testuser" ]}).

Definition world_reassigned : World :=
  mkWorld (mkDB {[ 1 := ticket_assigned ]} {[ "testuser"; "admin" ]} []
                [entry_assign_prev] ∅ ∅ ∅ []) 1000 [].

(** A REQUEST_CLARIFICATION entry on the same ticket. *)
Definition entry_clarification : ActionHistory :=
  mkAction 2 1 "REQUEST_CLARIFICATION" ∅ "autonomous_agent" (JNum 0.3) []
           false None false None None "" None None.

(** A rollback request of a staff user. *)
Definition admin_request : RollbackRequest :=
  mkRollbackRequest "admin" true false (Some "Incorrect resolution").

(** A ticket still in progress, alone in its database. *)
Definition ticket_open : Ticket :=
  mkTicket 1 "testuser" "software (high)" "in_progress" (Some "App crash")
           None "software" [] None false.

Definition world_open : World :=
  mkWorld (mkDB {[ 1 := ticket_open ]} {[ "testuser"; "admin" ]} [] [] ∅ ∅ ∅ [])
          1000 [].

(** The parameters of the end-to-end scenario. *)
Definition steps_params : gmap string json :=
  {[ "resolution_steps" := JList ["restart client"; "update driver"] ]}.


(** The two feedback bodies of the specification's scenario. *)
Definition feedback_still_broken : Feedback :=
  mkFeedback (Some false) None (Some "still broken").

Definition feedback_happy : Feedback :=
  mkFeedback (Some true) (Some 5) None.

(** ** What the other executors record *)

(** The entry [handle_assign_to_team] creates, in a history [h]. *)
Definition assign_entry (h : list ActionHistory) (ticket : Ticket)
    (params : gmap string json) : ActionHistory :=
  mkAction (fresh_id h) (ticket_id ticket) "ASSIGN_TO_TEAM" params
    "autonomous_agent" (response_get ticket "confidence" (JNum 0))
    [Lit "Assigned to ";
     Val (dict_get params "assigned_team" (JStr "IT Support"))] true
    (Some {[ "handler" := JStr "rollback_assign_to_team" ]})
    false None None ""
    (Some (unassigned_snapshot (status ticket)))
    (Some (unassigned_snapshot "assigned")).

(** The interaction [handle_request_clarification] logs. *)
Definition clarification_interaction (ticket : Ticket)
    (params : gmap string json) : TicketInteraction :=
  mkInteraction (ticket_id ticket) (user ticket) "agent_clarification_request"
    [Lit "Requested clarification: ";
     Val (dict_get params "reason" (JStr "Need more information"))].

(** The calls [handle_schedule_followup] makes, in order. *)
Definition followup_calls (ticket : Ticket) (params : gmap string json)
    : list effect :=
  (if truthy (dict_get params "followup_time" JNull)
   then [ApplyAsync "check_ticket_followup" (ticket_id ticket) (Some params)
                    (Eta (dict_get params "followup_time" JNull))]
   else [])
  ++ [Notify "send_solution_with_followup" (user ticket) (ticket_id ticket)
             params].

(** The article [sync_to_knowledge_base] writes for a ticket, and its
    title. *)
Definition kb_title (t : Ticket) : string := "Resolved: " +:+ issue_type t.

Definition kb_article_of (t : Ticket) : KbArticle :=
  mkArticle (description t) (agent_response t) (category t :: tags t).

(** Whether saving [t] over the stored [orig] is a transition into
    "resolved" with an agent response. *)
Definition resolving_save (t orig : Ticket) : bool :=
  String.eqb (status t) "resolved" && opt_dict_truthy (agent_response t)
  && negb (String.eqb (status orig) "resolved").

(** The row a feedback request leaves, from the row it starts from. *)
Definition feedback_result (data : Feedback) (t : Z) (r : TicketResolution)
    : TicketResolution :=
  if bool_decide (fb_resolution_confirmed data = Some false)
  then reopen t (default "User reported issue not resolved"
                         (fb_feedback_text data))
              (record_feedback data t r)
  else record_feedback data t r.

(** ** Further concrete worlds *)

(** A value assignment for the enum: each member carries its own name. *)
Definition member_name (a : AgentAction) : string :=
  match a with
  | AUTO_RESOLVE => "AUTO_RESOLVE"
  | ESCALATE => "ESCALATE"
  | REQUEST_CLARIFICATION => "REQUEST_CLARIFICATION"
  | ASSIGN_TO_TEAM => "ASSIGN_TO_TEAM"
  | SCHEDULE_FOLLOWUP => "SCHEDULE_FOLLOWUP"
  | CREATE_KB_ARTICLE => "CREATE_KB_ARTICLE"
  end.

(** A SCHEDULE_FOLLOWUP entry on the ticket of the rollback tests. *)
Definition entry_followup : ActionHistory :=
  mkAction 1 1 "SCHEDULE_FOLLOWUP" ∅ "autonomous_agent" (JNum 0.7) []
           false None false None None "" None None.

(** An ASSIGN_TO_TEAM entry whose snapshot names an agent that has left. *)
Definition entry_assign_gone : ActionHistory :=
  mkAction 1 1 "ASSIGN_TO_TEAM" ∅ "autonomous_agent" (JNum 0.6)
           [Lit "Assigned to "; Val (JStr "IT Support")] true
           (Some {[ "handler" := JStr "rollback_assign_to_team" ]})
           false None None ""
           (Some {[ "status" := Some "new"; "assigned_to_id" := Some "gone" ]})
           (Some {[ "status" := Some "assigned";
                    "assigned_to_id" := Some "gone" ]}).

(** The open ticket as it is handed to [save] once the agent has answered
    and resolved it. *)
Definition ticket_answered : Ticket :=
  mkTicket 1 "testuser" "software (high)" "resolved" (Some "App crash")
           None "software" ["crash"] (Some steps_params) true.

(** The same, when the steps the agent gave are the list of one empty
    string. *)
Definition ticket_blank_steps : Ticket :=
  mkTicket 1 "testuser" "software (high)" "resolved" (Some "App crash")
           None "software" ["crash"]
           (Some {[ "resolution_steps" := JList [""] ]}) true.

(** The world of the open ticket, with a given fault plan. *)
Definition world_open_with (faults : list bool) : World :=
  mkWorld (db world_open) 1000 faults.

(** The resolved ticket with its resolution row, the second write
    failing. *)
Definition world_tracked : World :=
  mkWorld (mkDB {[ 1 := ticket1 ]} {[ "testuser"; "admin" ]} [] [entry1]
                {[ 1 := mkResolution 1 (JStr "AUTO_RESOLVE") None "" None
                                     (Some 900) None false None "" ]}
                ∅ ∅ []) 1000 [false; true].

(** * Properties *)

(** ** Running computations *)

Lemma run_bind {A B} (m : M A) (k : A → M B) (w : World) :
  (m ≫= k) w = match m w with
               | (Ok a, w') => k a w'
               | (Raise e, w') => (Raise e, w')
               end.
Proof. reflexivity. Qed.

Lemma run_ret {A} (a : A) (w : World) : (mret a : M A) w = (Ok a, w).
Proof. reflexivity. Qed.

Lemma run_Ticket_get (tid : Z) (w : World) (t : Ticket) :
  tickets (db w) !! tid = Some t → Ticket_get tid w = (Ok t, w).
Proof. intros H. unfold Ticket_get. rewrite run_bind. simpl. by rewrite H. Qed.

(** With an exhausted fault plan every write goes through. *)
Lemma run_write_clean (f : DB → DB) (w : World) :
  pending w = [] →
  write f w = (Ok tt, mkWorld (f (db w)) (clock w) []).
Proof.
  intros H. unfold write, fallible. rewrite run_bind. rewrite H.
  unfold modify_db. by rewrite H.
Qed.

(** A write consumes the head of the plan and obeys it. *)
Lemma run_write (f : DB → DB) (w : World) :
  write f w =
  if hd false (pending w)
  then (Raise OperationFailed, mkWorld (db w) (clock w) (tl (pending w)))
  else (Ok tt, mkWorld (f (db w)) (clock w) (tl (pending w))).
Proof. destruct w as [d c [|[] fs]]; reflexivity. Qed.

Lemma run_now (w : World) : now w = (Ok (clock w), w).
Proof. reflexivity. Qed.

Lemma run_get_db (w : World) : get_db w = (Ok (db w), w).
Proof. reflexivity. Qed.

(** ** Fault plans *)

Lemma quiet_refl l : quiet l l.
Proof. by exists 0%nat. Qed.

Lemma quiet_tl l : hd false l = false → quiet l (tl l).
Proof.
  destruct l as [|[] l]; simpl; [|done|].
  - intros _. by exists 0%nat.
  - intros _. by exists 1%nat.
Qed.

Lemma quiet_trans l1 l2 l3 : quiet l1 l2 → quiet l2 l3 → quiet l1 l3.
Proof.
  intros [n ->] [m ->]. exists (n + m)%nat.
  by rewrite replicate_add, app_assoc.
Qed.

Ltac solve_quiet :=
  solve [ intros _;
          repeat first [ apply quiet_refl
                       | eassumption
                       | eapply quiet_trans;
                         [first [eassumption | apply quiet_tl; eassumption]|] ] ].

(** ** Saving a ticket *)

(** The outcomes of [Ticket.save] on a stored ticket: the first write
    either fails, and the database is as before, or puts the row in place;
    later writes (knowledge base, solution) can still fail.  With an
    exhausted plan the save returns. *)
Lemma Ticket_save_spec (t orig : Ticket) (w : World) :
  tickets (db w) !! ticket_id t = Some orig →
  ∃ r w', Ticket_save t w = (r, w')
    ∧ save_frame w w'
    ∧ (r = Ok tt ∨ r = Raise OperationFailed)
    ∧ (hd false (pending w) = true → r = Raise OperationFailed ∧ db w' = db w)
    ∧ (hd false (pending w) = false →
       tickets (db w') = <[ticket_id t := t]> (tickets (db w)))
    ∧ (pending w = [] → r = Ok tt ∧ pending w' = [])
    ∧ (r = Ok tt → quiet (pending w) (pending w')).
Proof.
  intros Ho. unfold Ticket_save. rewrite run_bind, (run_Ticket_get _ _ _ Ho).
  rewrite run_bind, run_write.
  destruct (hd false (pending w)) eqn:Hf.
  { eexists _, _. split; [reflexivity|]. unfold save_frame. simpl.
    split_and!; auto; try done. intros Hp. rewrite Hp in Hf. discriminate. }
  assert (Hfin : ∀ (r : result ()) d' p',
    users d' = users (db w) → interactions d' = interactions (db w) →
    history d' = history (db w) → resolutions d' = resolutions (db w) →
    outbox d' = outbox (db w) →
    tickets d' = <[ticket_id t := t]> (tickets (db w)) →
    (r = Ok tt ∨ r = Raise OperationFailed) →
    (r = Ok tt → quiet (pending w) p') →
    (pending w = [] → r = Ok tt ∧ p' = []) →
    ∃ r0 w', (r, mkWorld d' (clock w) p') = (r0, w')
      ∧ save_frame w w'
      ∧ (r0 = Ok tt ∨ r0 = Raise OperationFailed)
      ∧ (false = true → r0 = Raise OperationFailed ∧ db w' = db w)
      ∧ (false = false →
         tickets (db w') = <[ticket_id t := t]> (tickets (db w)))
      ∧ (pending w = [] → r0 = Ok tt ∧ pending w' = [])
      ∧ (r0 = Ok tt → quiet (pending w) (pending w'))).
  { intros. eexists _, _. split; [reflexivity|]. unfold save_frame. simpl.
    split_and!; auto; done. }
  destruct (_ && _ && _).
  2: { apply Hfin; simpl; auto; [solve_quiet|]. intros ->. done. }
  rewrite run_bind. unfold sync_to_knowledge_base.
  destruct (_ && _).
  2: { rewrite run_ret. destruct (has_steps _).
       2: { apply Hfin; simpl; auto; [solve_quiet|]. intros ->. done. }
       unfold Solution_get_or_create. rewrite run_bind, run_get_db.
       destruct (bool_decide _).
       { apply Hfin; simpl; auto; [solve_quiet|]. intros ->. done. }
       rewrite run_write. simpl. destruct (hd false (tail (pending w))) eqn:H2.
       - apply Hfin; simpl; auto; [done|].
         intros Hp. rewrite Hp in H2. done.
       - apply Hfin; simpl; auto; [solve_quiet|]. intros ->. done. }
  rewrite run_write. simpl. destruct (hd false (tail (pending w))) eqn:H2.
  { apply Hfin; simpl; auto; [done|]. intros Hp. rewrite Hp in H2. done. }
  destruct (has_steps _).
  2: { apply Hfin; simpl; auto; [solve_quiet|]. intros ->. done. }
  unfold Solution_get_or_create. rewrite run_bind, run_get_db.
  destruct (bool_decide _).
  { apply Hfin; simpl; auto; [solve_quiet|]. intros ->. done. }
  rewrite run_write. simpl.
  destruct (hd false (tail (tail (pending w)))) eqn:H3.
  - apply Hfin; simpl; auto; [done|]. intros Hp. rewrite Hp in H3. done.
  - apply Hfin; simpl; auto; [solve_quiet|]. intros ->. done.
Qed.

(** ** The rollback handlers *)

Lemma rollback_with_spec (restore : M Ticket) (ro : result Ticket)
    (a : ActionHistory) (by_user : uid) (reason : string)
    (msg : list fragment) (w : World) :
  restore w = (ro, w) →
  (∀ t, ro = Ok t → is_Some (tickets (db w) !! ticket_id t)) →
  ∃ b w', rollback_with restore a by_user reason msg w = (Ok b, w')
          ∧ rollback_outcome ro a by_user reason msg w b w'.
Proof.
  intros Hr Hstored. unfold rollback_with, try_except.
  rewrite run_bind, Hr. destruct ro as [t|e].
  2: { eexists _, _. split; [reflexivity|]. split; auto; try done.
       intros _ [t Ht]. done. }
  destruct (Hstored t eq_refl) as [orig Ho].
  unfold commit_rollback. rewrite run_bind.
  destruct (Ticket_save_spec t orig w Ho)
    as (r & w1 & -> & (Hc & Hu & Hi & Hh & Hres & Hout) & Hr1 & Hfail & Hok
        & Hclean & Hq).
  destruct r as [[]|e].
  2: { eexists _, _. split; [reflexivity|]. split; auto; try done.
       - intros _. split; [done|]. destruct (hd false (pending w)); [left|right].
         + by destruct Hfail as [_ ->].
         + eauto.
       - intros Hf. split; [done|]. by apply Hfail.
       - intros H. by destruct (H t).
       - intros Hp. destruct (Hclean Hp). done. }
  unfold TicketInteraction_create. rewrite run_bind, run_write.
  assert (Hf0 : hd false (pending w) = false).
  { destruct (hd false (pending w)); [|done]. by destruct Hfail. }
  specialize (Hok Hf0).
  destruct (hd false (pending w1)) eqn:Hf1.
  { eexists _, _. split; [reflexivity|]. split; simpl; auto; try done.
    - intros _. split; [done|]. eauto.
    - congruence.
    - intros H. by destruct (H t).
    - intros Hp. destruct (Hclean Hp) as [_ Hp1]. rewrite Hp1 in Hf1. done. }
  rewrite run_bind, run_now. unfold ActionHistory_save.
  rewrite run_bind, run_write. simpl.
  destruct (hd false (tail (pending w1))) eqn:Hf2.
  { eexists _, _. split; [reflexivity|]. split; simpl; auto; try done.
    - intros _. split; [done|]. eauto.
    - congruence.
    - intros H. by destruct (H t).
    - intros Hp. destruct (Hclean Hp) as [_ Hp1]. rewrite Hp1 in Hf2. done. }
  eexists _, _. split; [reflexivity|]. split; simpl; auto; try done.
  - intros _. exists t. split_and!; auto; congruence.
  - congruence.
  - intros H. by destruct (H t).
  - specialize (Hq eq_refl). solve_quiet.
Qed.

(** ** Eligibility *)

Lemma find_action_id (i : nat) (h : list ActionHistory) (a : ActionHistory) :
  find_action i h = Some a → id a = i.
Proof.
  unfold find_action. intros H. apply List.find_some in H as [_ H].
  by apply Nat.eqb_eq in H.
Qed.

Lemma run_ActionHistory_get (i : nat) (w : World) (a : ActionHistory) :
  find_action i (history (db w)) = Some a →
  ActionHistory_get i w = (Ok a, w).
Proof.
  intros H. unfold ActionHistory_get. rewrite run_bind. simpl. by rewrite H.
Qed.

(** C4. [can_rollback] holds exactly for AUTO_RESOLVE, ASSIGN_TO_TEAM,
    ESCALATE and SCHEDULE_FOLLOWUP.  For an entry of type
    REQUEST_CLARIFICATION or CREATE_KB_ARTICLE whose ticket is stored,
    [execute_rollback] returns false and the world (database and fault
    plan: no write was even attempted) is the one it started from; the
    endpoint rejects the request with status 400 and an error naming the
    action type, again leaving everything as it was. *)
Theorem rollback_eligibility
    (a : ActionHistory) (t : Ticket) (w : World)
    (request : RollbackRequest) (by_user : uid) (reason : string) :
  tickets (db w) !! ah_ticket a = Some t →
  action_type a = "REQUEST_CLARIFICATION" ∨ action_type a = "CREATE_KB_ARTICLE" →
  (∀ s, RollbackManager.can_rollback s = true ↔
        s ∈ ["AUTO_RESOLVE"; "ASSIGN_TO_TEAM"; "ESCALATE"; "SCHEDULE_FOLLOWUP"])
  ∧ RollbackManager.can_rollback (action_type a) = false
  ∧ RollbackManager.execute_rollback a by_user reason w = (Ok false, w)
  ∧ (is_staff request || has_role request = true →
     find_action (id a) (history (db w)) = Some a →
     rolled_back a = false →
     rollback_action request (id a) w =
       (Ok (mkResponse 400
              [("error", JStr ("Action type " +:+ action_type a
                               +:+ " does not support rollback"))]), w)).
Proof.
  intros Ht Hty. split; [|split; [|split]].
  - intros s. unfold RollbackManager.can_rollback. apply bool_decide_eq_true.
  - by destruct Hty as [-> | ->].
  - unfold RollbackManager.execute_rollback. rewrite run_bind.
    rewrite (run_Ticket_get _ _ _ Ht). by destruct Hty as [-> | ->].
  - intros Hperm Hfind Hrb. unfold rollback_action.
    destruct (is_staff request), (has_role request); try discriminate; simpl;
      unfold try_except; rewrite run_bind, (run_ActionHistory_get _ _ _ Hfind);
      rewrite Hrb; by destruct Hty as [-> | ->].
Qed.

Lemma rollback_eligibility_witness :
  RollbackManager.can_rollback "REQUEST_CLARIFICATION" = false
  ∧ RollbackManager.execute_rollback entry_clarification "admin" "why"
      (world1 [entry1; entry_clarification] [true])
    = (Ok false, world1 [entry1; entry_clarification] [true])
  ∧ (rollback_action admin_request 2
       (world1 [entry1; entry_clarification] [true])).2
    = world1 [entry1; entry_clarification] [true].
Proof.
  destruct (rollback_eligibility entry_clarification ticket1
              (world1 [entry1; entry_clarification] [true])
              admin_request "admin" "why" eq_refl (or_introl eq_refl))
    as (_ & Hcan & Hrun & Hview).
  split; [exact Hcan|]. split; [exact Hrun|].
  exact (f_equal snd (Hview eq_refl eq_refl eq_refl)).
Defined.

(** ** The restore step of each handler *)

Lemma rollback_auto_resolve_eq ticket a by_user reason :
  RollbackManager.rollback_auto_resolve ticket a by_user reason =
  rollback_with (assign_status (snapshot_status "in-progress" a) ticket)
                a by_user reason (auto_resolve_text reason).
Proof.
  unfold RollbackManager.rollback_auto_resolve, rollback_with, snapshot_status.
  by destruct (opt_dict_truthy _).
Qed.

Lemma rollback_escalate_eq ticket a by_user reason :
  RollbackManager.rollback_escalate ticket a by_user reason =
  rollback_with (assign_status (snapshot_status "new" a) ticket)
                a by_user reason (escalate_text reason).
Proof.
  unfold RollbackManager.rollback_escalate, rollback_with, snapshot_status.
  by destruct (opt_dict_truthy _).
Qed.

Lemma rollback_assign_to_team_eq ticket a by_user reason :
  RollbackManager.rollback_assign_to_team ticket a by_user reason =
  rollback_with (restore_assignee a ticket)
                a by_user reason (assign_text reason).
Proof.
  unfold RollbackManager.rollback_assign_to_team, rollback_with,
    restore_assignee, snapshot_assignee.
  destruct (opt_dict_truthy _); [|done].
  destruct (dict_get _ _ _) as [s|]; [|done]. simpl.
  by destruct (negb _).
Qed.

Lemma run_assign_status v ticket w :
  assign_status v ticket w = (status_result v ticket, w).
Proof. by destruct v. Qed.

Lemma run_restore_assignee a ticket w :
  restore_assignee a ticket w = (assignee_result a ticket, w).
Proof.
  unfold restore_assignee, assignee_result.
  destruct (snapshot_assignee a) as [u|]; reflexivity.
Qed.

(** ** The dispatcher *)

Lemma status_result_id v t t' :
  status_result v t = Ok t' → ticket_id t' = ticket_id t.
Proof. destruct v; simpl; [|done]. by intros [= <-]. Qed.

Lemma assignee_result_id a t t' :
  assignee_result a t = Ok t' → ticket_id t' = ticket_id t.
Proof.
  unfold assignee_result. destruct (snapshot_assignee a); [done|].
  by intros [= <-].
Qed.

Lemma restore_result_id a t t' :
  restore_result a t = Some (Ok t') → ticket_id t' = ticket_id t.
Proof.
  unfold restore_result. repeat case_match; intros [= Hr];
    eauto using status_result_id, assignee_result_id.
Qed.

(** [execute_rollback] on an entry whose ticket is stored never raises:
    it returns false for a type without handler, and otherwise behaves as
    the handler's outcome says. *)
Lemma execute_rollback_spec (a : ActionHistory) (t : Ticket)
    (by_user : uid) (reason : string) (w : World) :
  tickets (db w) !! ah_ticket a = Some t →
  ticket_id t = ah_ticket a →
  ∃ b w', RollbackManager.execute_rollback a by_user reason w = (Ok b, w')
    ∧ match restore_result a t with
      | Some ro => rollback_outcome ro a by_user reason (rollback_text a reason)
                                    w b w'
      | None => b = false ∧ w' = w
      end.
Proof.
  intros Ht Hid. unfold RollbackManager.execute_rollback.
  rewrite run_bind, (run_Ticket_get _ _ _ Ht).
  unfold restore_result, rollback_text.
  assert (Hst : ∀ v t', status_result v t = Ok t' →
                        is_Some (tickets (db w) !! ticket_id t')).
  { intros v t' Hv. rewrite (status_result_id _ _ _ Hv), Hid. eauto. }
  destruct (String.eqb (action_type a) "AUTO_RESOLVE").
  { rewrite rollback_auto_resolve_eq.
    apply rollback_with_spec; [apply run_assign_status | eauto]. }
  destruct (String.eqb (action_type a) "ASSIGN_TO_TEAM").
  { rewrite rollback_assign_to_team_eq.
    apply rollback_with_spec; [apply run_restore_assignee|].
    intros t' Hv. rewrite (assignee_result_id _ _ _ Hv), Hid. eauto. }
  destruct (String.eqb (action_type a) "ESCALATE").
  { rewrite rollback_escalate_eq.
    apply rollback_with_spec; [apply run_assign_status | eauto]. }
  eexists _, _. split; [reflexivity|done].
Qed.

Lemma find_action_app_None i h a :
  find_action i h = None → id a = i → find_action i (h ++ [a]) = Some a.
Proof.
  unfold find_action. intros Hn Hi. induction h as [|b h IH]; simpl in *.
  - subst i. by rewrite Nat.eqb_refl.
  - destruct (Nat.eqb (id b) i); [done|]. by apply IH.
Qed.

Lemma find_action_replace a h :
  is_Some (find_action (id a) h) →
  find_action (id a)
    ((λ b, if Nat.eqb (id b) (id a) then a else b) <$> h) = Some a.
Proof.
  unfold find_action. induction h as [|b h IH]; simpl.
  - by intros [? ?].
  - destruct (Nat.eqb (id b) (id a)) eqn:E; simpl.
    + by rewrite Nat.eqb_refl.
    + rewrite E. apply IH.
Qed.

(** After [save()], the entry read back by its key is the one saved. *)
Lemma find_upsert_action a h :
  find_action (id a) (upsert_action a h) = Some a.
Proof.
  unfold upsert_action. destruct (find_action (id a) h) eqn:E.
  - apply find_action_replace. eauto.
  - by apply find_action_app_None.
Qed.

(** ** Rollback under failure *)

(** C5, as the code has it.  [execute_rollback] on an entry whose ticket
    is stored returns a boolean and never raises.  It returns true only if
    no write failed, and then every write of the handler took place: the
    ticket row is the ticket as the handler restored it from the snapshot,
    the interaction is logged, and the entry is stored as rolled back.  So
    there is never a flag without the ticket effect: if the entry was not
    rolled back and is found rolled back afterwards, the ticket row is the
    restored one.  When the call returns false the entries are as before.
    If the first write, the one of the ticket, fails, the database is
    untouched. *)
Theorem rollback_failure_semantics
    (a : ActionHistory) (t : Ticket) (by_user : uid) (reason : string)
    (w : World) :
  tickets (db w) !! ah_ticket a = Some t →
  ticket_id t = ah_ticket a →
  ∃ b w', RollbackManager.execute_rollback a by_user reason w = (Ok b, w')
    ∧ (b = true → quiet (pending w) (pending w'))
    ∧ (b = true →
       ∃ t', restore_result a t = Some (Ok t')
         ∧ tickets (db w') = <[ah_ticket a := t']> (tickets (db w))
         ∧ interactions (db w') =
             interactions (db w)
             ++ [mkInteraction (ah_ticket a) by_user "agent_response"
                               (rollback_text a reason)]
         ∧ history (db w') =
             upsert_action (mark_rolled_back (clock w) by_user reason a)
                           (history (db w))
         ∧ find_action (id a) (history (db w')) =
             Some (mark_rolled_back (clock w) by_user reason a))
    ∧ (b = false → history (db w') = history (db w))
    ∧ (find_action (id a) (history (db w)) = Some a →
       rolled_back a = false →
       ∀ e, find_action (id a) (history (db w')) = Some e →
            rolled_back e = true →
            ∃ t', restore_result a t = Some (Ok t')
              ∧ tickets (db w') = <[ah_ticket a := t']> (tickets (db w)))
    ∧ (hd false (pending w) = true → b = false ∧ db w' = db w).
Proof.
  intros Ht Hid.
  destruct (execute_rollback_spec a t by_user reason w Ht Hid)
    as (b & w' & Hrun & Hout).
  exists b, w'. split; [exact Hrun|].
  destruct (restore_result a t) as [ro|] eqn:Hro.
  2: { destruct Hout as [-> ->].
       split; [discriminate|]. split; [discriminate|].
       split; [reflexivity|]. split; [|intros _; split; reflexivity].
       intros Hf Hrb e He Hre. rewrite Hf in He. injection He as <-.
       congruence. }
  assert (Hdone : b = true →
    ∃ t', Some ro = Some (Ok t')
      ∧ tickets (db w') = <[ah_ticket a := t']> (tickets (db w))
      ∧ interactions (db w') =
          interactions (db w)
          ++ [mkInteraction (ah_ticket a) by_user "agent_response"
                            (rollback_text a reason)]
      ∧ history (db w') =
          upsert_action (mark_rolled_back (clock w) by_user reason a)
                        (history (db w))
      ∧ find_action (id a) (history (db w')) =
          Some (mark_rolled_back (clock w) by_user reason a)).
  { intros Hb.
    destruct (ro_done _ _ _ _ _ _ _ _ Hout Hb) as (t' & -> & Htk & Hi & Hh).
    rewrite (restore_result_id _ _ _ Hro), Hid in Htk, Hi.
    exists t'. split; [reflexivity|]. split; [exact Htk|].
    split; [exact Hi|]. split; [exact Hh|].
    rewrite Hh. apply (find_upsert_action (mark_rolled_back _ _ _ a)). }
  split; [apply (ro_quiet _ _ _ _ _ _ _ _ Hout)|].
  split; [exact Hdone|].
  split.
  { intros Hb. by destruct (ro_failed _ _ _ _ _ _ _ _ Hout Hb). }
  split; [|apply (ro_first_write _ _ _ _ _ _ _ _ Hout)].
  intros Hf Hrb e He Hre. destruct b.
  - destruct (Hdone eq_refl) as (t' & Hr & Htk & _). eauto.
  - destruct (ro_failed _ _ _ _ _ _ _ _ Hout eq_refl) as [Hh _].
    rewrite Hh, Hf in He. injection He as <-. congruence.
Qed.

Lemma rollback_failure_semantics_witness :
  ∃ b w',
    RollbackManager.execute_rollback entry1 "admin" "not fixed"
      (world1 [entry1] [true]) = (Ok b, w')
    ∧ b = false ∧ db w' = db1 [entry1].
Proof.
  destruct (rollback_failure_semantics entry1 ticket1 "admin" "not fixed"
              (world1 [entry1] [true]) eq_refl eq_refl)
    as (b & w' & Hrun & _ & _ & _ & _ & Hfirst).
  exists b, w'. split; [exact Hrun|]. apply Hfirst. reflexivity.
Defined.

(** C5 fails as stated: the interaction write fails after the ticket was
    saved; the call returns false, the entry is not marked, and the ticket
    has left "resolved" for the snapshot's status all the same. *)
Lemma rollback_not_atomic :
  let w := world1 [entry1] [false; true] in
  let out := RollbackManager.execute_rollback entry1 "admin" "not fixed" w in
  out.1 = Ok false
  ∧ stored_status 1 w = Some "resolved"
  ∧ stored_status 1 out.2 = Some "in_progress"
  ∧ history (db out.2) = [entry1]
  ∧ rolled_back entry1 = false.
Proof. vm_compute. split_and!; reflexivity. Qed.

(** ** Restoring the snapshot *)

Lemma snapshot_status_present dflt a (m : snapshot) s :
  before_state a = Some m → m !! "status" = Some (Some s) →
  snapshot_status dflt a = Some s.
Proof.
  intros Hb Hs. unfold snapshot_status, opt_dict_truthy, dict_truthy, dict_get.
  rewrite Hb. simpl. rewrite Hs.
  case_bool_decide as He; [|done]. rewrite He, lookup_empty in Hs. done.
Qed.

Lemma snapshot_status_absent dflt a :
  before_state a = None
  ∨ (∃ m : snapshot, before_state a = Some m ∧ m !! "status" = None) →
  snapshot_status dflt a = Some dflt.
Proof.
  unfold snapshot_status, opt_dict_truthy, dict_truthy, dict_get.
  intros [-> | (m & -> & Hs)]; [done|]. simpl. rewrite Hs. by case_bool_decide.
Qed.

Lemma lookup_stored `{Countable K} {V} (m : gmap K V) k v :
  <[k := v]> m !! k = Some v.
Proof. apply lookup_insert_eq. Qed.

(** C2, as the code has it.  Rolling back an AUTO_RESOLVE or ESCALATE
    entry whose snapshot holds a status sets the ticket's status to exactly
    that status and changes no other field of the ticket.  When the
    snapshot is absent (or holds no status) the status becomes the
    handler's default, which is the string "in-progress" for AUTO_RESOLVE
    and "new" for ESCALATE.  This is the state after every call that
    returns true, and with no fault pending the call does return true. *)
Theorem rollback_restores_snapshot_status
    (a : ActionHistory) (t : Ticket) (by_user : uid) (reason : string)
    (w : World) (dflt expected : string) :
  tickets (db w) !! ah_ticket a = Some t →
  ticket_id t = ah_ticket a →
  (action_type a = "AUTO_RESOLVE" ∧ dflt = "in-progress")
  ∨ (action_type a = "ESCALATE" ∧ dflt = "new") →
  (∃ m : snapshot, before_state a = Some m
                   ∧ m !! "status" = Some (Some expected))
  ∨ ((before_state a = None
      ∨ ∃ m : snapshot, before_state a = Some m ∧ m !! "status" = None)
     ∧ expected = dflt) →
  ∃ b w', RollbackManager.execute_rollback a by_user reason w = (Ok b, w')
    ∧ (b = true →
       tickets (db w') !! ah_ticket a = Some (with_status expected t))
    ∧ (pending w = [] → b = true).
Proof.
  intros Ht Hid Hty Hsnap.
  assert (Hs : snapshot_status dflt a = Some expected).
  { destruct Hsnap as [(m & Hb & Hm) | [Habs ->]].
    - by eapply snapshot_status_present.
    - by apply snapshot_status_absent. }
  destruct (execute_rollback_spec a t by_user reason w Ht Hid)
    as (b & w' & Hrun & Hout).
  exists b, w'. split; [done|].
  assert (Hro : restore_result a t = Some (Ok (with_status expected t))).
  { unfold restore_result.
    destruct Hty as [[-> ->] | [-> ->]]; simpl; by rewrite Hs. }
  rewrite Hro in Hout. split.
  - intros Hb.
    destruct (ro_done _ _ _ _ _ _ _ _ Hout Hb) as (t' & [= <-] & Htk & _).
    rewrite Htk. simpl. rewrite Hid. apply lookup_stored.
  - intros Hp. apply (ro_clean _ _ _ _ _ _ _ _ Hout Hp). eauto.
Qed.

Lemma rollback_restores_snapshot_status_witness :
  ∃ b w',
    RollbackManager.execute_rollback entry1 "admin" "not fixed"
      (world1 [entry1] []) = (Ok b, w')
    ∧ b = true
    ∧ tickets (db w') !! 1 = Some (with_status "in_progress" ticket1).
Proof.
  destruct (rollback_restores_snapshot_status entry1 ticket1 "admin"
              "not fixed" (world1 [entry1] []) "in-progress" "in_progress"
              eq_refl eq_refl (or_introl (conj eq_refl eq_refl))
              (or_introl (ex_intro _ {[ "status" := Some "in_progress" ]}
                            (conj eq_refl eq_refl))))
    as (b & w' & Hrun & Hdone & Hclean).
  exists b, w'. split; [exact Hrun|].
  split; [exact (Hclean eq_refl) | exact (Hdone (Hclean eq_refl))].
Defined.

(** C2 fails as stated: with the snapshot absent, the rollback of an
    AUTO_RESOLVE entry succeeds and leaves the status "in-progress", which
    is not the status "in_progress". *)
Lemma rollback_default_is_hyphenated :
  let w := world1 [entry_no_snapshot] [] in
  let out :=
    RollbackManager.execute_rollback entry_no_snapshot "admin" "not fixed" w in
  before_state entry_no_snapshot = None
  ∧ out.1 = Ok true
  ∧ stored_status 1 out.2 = Some "in-progress"
  ∧ stored_status 1 out.2 ≠ Some "in_progress".
Proof. vm_compute. split_and!; try reflexivity. discriminate. Qed.

(** ** The frame of the team-assignment rollback *)

Lemma snapshot_assignee_present a (m : snapshot) u :
  before_state a = Some m → m !! "assigned_to_id" = Some (Some u) →
  u ≠ "" → snapshot_assignee a = Some u.
Proof.
  intros Hb Hs Hu.
  unfold snapshot_assignee, opt_dict_truthy, dict_truthy, dict_get.
  rewrite Hb. simpl. rewrite Hs.
  case_bool_decide as He; [rewrite He, lookup_empty in Hs; done|]. simpl.
  destruct (String.eqb_spec u ""); done.
Qed.

Lemma snapshot_assignee_absent a :
  before_state a = None
  ∨ (∃ m : snapshot, before_state a = Some m
       ∧ (m !! "assigned_to_id" = None
          ∨ m !! "assigned_to_id" = Some None
          ∨ m !! "assigned_to_id" = Some (Some ""))) →
  snapshot_assignee a = None.
Proof.
  unfold snapshot_assignee, opt_dict_truthy, dict_truthy, dict_get.
  intros [-> | (m & -> & Hs)]; [done|]. simpl.
  case_bool_decide; [done|]. simpl.
  by destruct Hs as [-> | [-> | ->]].
Qed.

(** C10, the frame and the defect.  Rolling back an ASSIGN_TO_TEAM entry
    writes at most the ticket's own row, and the row it leaves is the
    ticket as it was or the ticket with only [assigned_to] set to null:
    the status and every other field are the ones the ticket had, whatever
    the outcome.  [expected] is the assignee the specification asks for:
    the user of [before_state.assigned_to_id], or null when the snapshot,
    the key or the id is absent.  When it is null, a call that returns true has
    set the assignee to null, and with no fault pending the call returns
    true.  When it is a user, the handler looks it up by [user_id], which
    is no field of the user model: the call returns false and the world is
    the one it started from, so a previous assignee is never restored. *)
Theorem assign_rollback_frame
    (a : ActionHistory) (t : Ticket) (by_user : uid) (reason : string)
    (w : World) (expected : option uid) :
  tickets (db w) !! ah_ticket a = Some t →
  ticket_id t = ah_ticket a →
  action_type a = "ASSIGN_TO_TEAM" →
  (∃ (m : snapshot) u, before_state a = Some m
       ∧ m !! "assigned_to_id" = Some (Some u) ∧ u ≠ ""
       ∧ expected = Some u)
  ∨ ((before_state a = None
      ∨ ∃ m : snapshot, before_state a = Some m
          ∧ (m !! "assigned_to_id" = None
             ∨ m !! "assigned_to_id" = Some None
             ∨ m !! "assigned_to_id" = Some (Some "")))
     ∧ expected = None) →
  ∃ b w' t',
    RollbackManager.execute_rollback a by_user reason w = (Ok b, w')
    ∧ tickets (db w') = <[ah_ticket a := t']> (tickets (db w))
    ∧ (t' = t ∨ t' = with_assigned_to None t)
    ∧ status t' = status t
    ∧ (b = true → expected = None ∧ t' = with_assigned_to None t)
    ∧ (expected = None → pending w = [] → b = true)
    ∧ (∀ u, expected = Some u → b = false ∧ w' = w).
Proof.
  intros Ht Hid Hty Hsnap.
  assert (Hs : snapshot_assignee a = expected).
  { destruct Hsnap as [(m & u & Hb & Hm & Hu & ->) | [Habs ->]].
    - by eapply snapshot_assignee_present.
    - by apply snapshot_assignee_absent. }
  destruct (execute_rollback_spec a t by_user reason w Ht Hid)
    as (b & w' & Hrun & Hout).
  assert (Hro : restore_result a t = Some (assignee_result a t)).
  { unfold restore_result. by rewrite Hty. }
  rewrite Hro in Hout. unfold assignee_result in Hout. rewrite Hs in Hout.
  assert (Hsame : tickets (db w) = <[ah_ticket a := t]> (tickets (db w))).
  { symmetry. by apply insert_id. }
  destruct expected as [u|].
  - destruct (ro_no_restore _ _ _ _ _ _ _ _ Hout) as [-> ->];
      [intros t0; discriminate|].
    exists false, w, t. split; [exact Hrun|]. split; [exact Hsame|].
    split; [by left|]. split; [reflexivity|]. split; [discriminate|].
    split; [discriminate|]. intros u' _. split; reflexivity.
  - destruct b.
    + destruct (ro_done _ _ _ _ _ _ _ _ Hout eq_refl)
        as (t0 & [= <-] & Htk & _).
      simpl in Htk. rewrite Hid in Htk.
      exists true, w', (with_assigned_to None t).
      split; [exact Hrun|]. split; [exact Htk|]. split; [by right|].
      split; [reflexivity|]. split; [intros _; split; reflexivity|].
      split; [intros _ _; reflexivity|]. intros u'. discriminate.
    + destruct (ro_failed _ _ _ _ _ _ _ _ Hout eq_refl) as [_ Hcase].
      assert (Hclean : None = @None uid → pending w = [] → false = true).
      { intros _ Hp. apply (ro_clean _ _ _ _ _ _ _ _ Hout Hp). eauto. }
      destruct Hcase as [Htk | (t0 & [= <-] & Htk)].
      * exists false, w', t. split; [exact Hrun|].
        split; [by rewrite Htk|]. split; [by left|].
        split; [reflexivity|]. split; [discriminate|].
        split; [exact Hclean|]. intros u'. discriminate.
      * simpl in Htk. rewrite Hid in Htk.
        exists false, w', (with_assigned_to None t).
        split; [exact Hrun|]. split; [exact Htk|]. split; [by right|].
        split; [reflexivity|]. split; [discriminate|].
        split; [exact Hclean|]. intros u'. discriminate.
Qed.

Lemma assign_rollback_frame_witness :
  (∃ b w' t',
     RollbackManager.execute_rollback entry_assign "admin" "wrong team"
       world_assigned = (Ok b, w')
     ∧ tickets (db w') = <[1 := t']> (tickets (db world_assigned))
     ∧ b = true
     ∧ t' = with_assigned_to None ticket_assigned
     ∧ status t' = "assigned")
  ∧ "testuser" ∈ users (db world_reassigned)
  ∧ RollbackManager.execute_rollback entry_assign_prev "admin" "wrong team"
      world_reassigned = (Ok false, world_reassigned).
Proof.
  split; [|split].
  - destruct (assign_rollback_frame entry_assign ticket_assigned "admin"
                "wrong team" world_assigned None eq_refl eq_refl eq_refl)
      as (b & w' & t' & Hrun & Htk & _ & Hst & Hdone & Hclean & _).
    { right. split; [|reflexivity]. right.
      exists {[ "status" := Some "new"; "assigned_to_id" := None ]}.
      split; [reflexivity|]. right. left. reflexivity. }
    assert (Hb : b = true) by (apply Hclean; reflexivity).
    exists b, w', t'. split; [exact Hrun|].
    split; [exact Htk|]. split; [exact Hb|].
    split; [exact (proj2 (Hdone Hb))|]. exact Hst.
  - vm_compute. reflexivity.
  - destruct (assign_rollback_frame entry_assign_prev ticket_assigned "admin"
                "wrong team" world_reassigned (Some "testuser")
                eq_refl eq_refl eq_refl)
      as (b & w' & t' & Hrun & _ & _ & _ & _ & _ & Hlost).
    { left.
      exists {[ "status" := Some "new"; "assigned_to_id" := Some "testuser" ]},
             "testuser".
      split; [reflexivity|]. split; [reflexivity|].
      split; [discriminate | reflexivity]. }
    destruct (Hlost "testuser" eq_refl) as [-> ->]. exact Hrun.
Defined.

(** ** At most one rollback per entry, at the endpoint *)

Lemma rollback_action_permitted request i :
  is_staff request || has_role request = true →
  rollback_action request i =
  try_except
    (action_history ← ActionHistory_get i;
     if rolled_back action_history then mret already_rolled_back
     else if negb (RollbackManager.can_rollback (action_type action_history))
     then
       mret (mkResponse 400
               [("error", JStr ("Action type " +:+ action_type action_history
                                +:+ " does not support rollback"))])
     else
       let reason := default "Manual rollback by admin" (req_reason request) in
       success ← RollbackManager.execute_rollback action_history
                   (req_user request) reason;
       if success : bool then
         mret (mkResponse 200
                 [("message", JStr "Action rolled back successfully");
                  ("ticket_id", JNum (inject_Z (ah_ticket action_history)));
                  ("action_type", JStr (action_type action_history));
                  ("rollback_reason", JStr reason)])
       else
         mret (mkResponse 500 [("error", JStr "Rollback failed")]))
    (λ e, match e with
          | DoesNotExist "ActionHistory" =>
              mret (mkResponse 404 [("error", JStr "Action history not found")])
          | _ =>
              mret (mkResponse 500 [("error", JStr "Rollback failed");
                                    ("details", JStr (exn_text e))])
          end).
Proof.
  intros Hp. unfold rollback_action.
  by destruct (is_staff request), (has_role request).
Qed.

(** The guard of the endpoint: an entry already rolled back is refused
    before anything is written. *)
Lemma rollback_action_refuses request i a w :
  is_staff request || has_role request = true →
  find_action i (history (db w)) = Some a →
  rolled_back a = true →
  rollback_action request i w = (Ok already_rolled_back, w).
Proof.
  intros Hp Hf Hrb. rewrite (rollback_action_permitted _ _ Hp).
  unfold try_except. rewrite run_bind, (run_ActionHistory_get _ _ _ Hf).
  by rewrite Hrb.
Qed.

(** A request answered with 200 ran [execute_rollback] to success on an
    entry that was not yet rolled back. *)
Lemma rollback_action_200 request i a w r1 w1 :
  is_staff request || has_role request = true →
  find_action i (history (db w)) = Some a →
  rollback_action request i w = (Ok r1, w1) →
  http_status r1 = 200 →
  rolled_back a = false
  ∧ RollbackManager.execute_rollback a (req_user request)
      (default "Manual rollback by admin" (req_reason request)) w
    = (Ok true, w1).
Proof.
  intros Hp Hf Hrun H200. rewrite (rollback_action_permitted _ _ Hp) in Hrun.
  unfold try_except in Hrun.
  rewrite run_bind, (run_ActionHistory_get _ _ _ Hf) in Hrun.
  destruct (rolled_back a).
  { injection Hrun as <- <-. done. }
  destruct (negb _).
  { injection Hrun as <- <-. done. }
  rewrite run_bind in Hrun.
  destruct (RollbackManager.execute_rollback _ _ _ w) as [[[]|e] w2].
  - injection Hrun as <- <-. done.
  - injection Hrun as <- <-. done.
  - destruct e as [model| | | |]; try (injection Hrun as <- <-; done).
    revert Hrun. repeat case_match; intros [= <- <-]; done.
Qed.

(** C1, as the code has it.  The guard against a second rollback is in
    the endpoint [rollback_action]: a permitted request for an entry that
    is already rolled back is answered with status 400 and the error
    "This action was already rolled back", and the world is unchanged.
    Hence, of two successive requests for the same entry, if the first is
    answered with 200 then the entry was not rolled back before, it is
    stored as rolled back by the requester afterwards, and the second is
    refused with 400 and changes nothing. *)
Theorem rollback_endpoint_at_most_once
    (request : RollbackRequest) (i : nat) (a : ActionHistory) (t : Ticket)
    (w : World) :
  is_staff request || has_role request = true →
  find_action i (history (db w)) = Some a →
  tickets (db w) !! ah_ticket a = Some t →
  ticket_id t = ah_ticket a →
  (rolled_back a = true →
   rollback_action request i w = (Ok already_rolled_back, w))
  ∧ (∀ r1 w1 request2,
       is_staff request2 || has_role request2 = true →
       rollback_action request i w = (Ok r1, w1) →
       http_status r1 = 200 →
       rolled_back a = false
       ∧ (∃ a1, find_action i (history (db w1)) = Some a1
                ∧ rolled_back a1 = true
                ∧ rolled_back_by a1 = Some (req_user request))
       ∧ rollback_action request2 i w1 = (Ok already_rolled_back, w1)).
Proof.
  intros Hp Hf Ht Hid. split.
  - by apply rollback_action_refuses.
  - intros r1 w1 request2 Hp2 Hrun H200.
    destruct (rollback_action_200 _ _ _ _ _ _ Hp Hf Hrun H200) as [Hrb Hex].
    split; [done|].
    destruct (execute_rollback_spec a t (req_user request)
                (default "Manual rollback by admin" (req_reason request))
                w Ht Hid) as (b & w' & Hrun' & Hout).
    rewrite Hex in Hrun'. injection Hrun' as <- <-.
    destruct (restore_result a t) as [ro|]; [|by destruct Hout].
    destruct (ro_done _ _ _ _ _ _ _ _ Hout eq_refl) as (t' & _ & _ & _ & Hh).
    pose proof (find_upsert_action
                  (mark_rolled_back (clock w) (req_user request)
                     (default "Manual rollback by admin" (req_reason request))
                     a) (history (db w))) as Hfind.
    rewrite <- Hh in Hfind. simpl in Hfind.
    rewrite (find_action_id _ _ _ Hf) in Hfind.
    split; [eauto|].
    eapply rollback_action_refuses; eauto.
Qed.

Lemma rollback_endpoint_at_most_once_witness :
  ∃ r1 w1,
    rollback_action admin_request 1 (world1 [entry1] []) = (Ok r1, w1)
    ∧ http_status r1 = 200
    ∧ rollback_action admin_request 1 w1 = (Ok already_rolled_back, w1).
Proof.
  destruct (rollback_endpoint_at_most_once admin_request 1 entry1 ticket1
              (world1 [entry1] []) eq_refl eq_refl eq_refl eq_refl)
    as [_ Htwice].
  destruct (rollback_action admin_request 1 (world1 [entry1] []))
    as [res w1] eqn:E.
  assert (Hres : ∃ r1, res = Ok r1 ∧ http_status r1 = 200).
  { apply (f_equal fst) in E. simpl in E. rewrite <- E. vm_compute.
    eexists. split; reflexivity. }
  destruct Hres as (r1 & -> & H200).
  exists r1, w1. split; [reflexivity|]. split; [exact H200|].
  exact (proj2 (proj2 (Htwice r1 w1 admin_request eq_refl eq_refl H200))).
Defined.

(** C1 fails as stated: [execute_rollback] does not look at
    [rolled_back].  On an entry that is already rolled back it returns
    true, moves the ticket from "resolved" to the snapshot's status, adds
    an interaction and rewrites the entry's rollback fields. *)
Lemma execute_rollback_runs_twice :
  let w := world1 [entry_rolled_back] [] in
  let out :=
    RollbackManager.execute_rollback entry_rolled_back "testuser" "again" w in
  rolled_back entry_rolled_back = true
  ∧ out.1 = Ok true
  ∧ stored_status 1 w = Some "resolved"
  ∧ stored_status 1 out.2 = Some "in_progress"
  ∧ length (interactions (db out.2)) = 1%nat
  ∧ (rollback_reason <$> find_action 1 (history (db out.2))) = Some "again".
Proof. vm_compute. split_and!; reflexivity. Qed.

(** ** Automatic resolution *)

(** Taking the snapshot: it is read off a ticket without assignee, and
    raises for a ticket with one. *)
Lemma run_status_and_assignee (t : Ticket) (w : World) :
  assigned_to t = None →
  status_and_assignee t w = (Ok (unassigned_snapshot (status t)), w).
Proof. intros Ha. unfold status_and_assignee, assigned_to_id. by rewrite Ha. Qed.

Lemma run_status_and_assignee_assigned (t : Ticket) (u : uid) (w : World) :
  assigned_to t = Some u →
  status_and_assignee t w = (Raise (AttributeError "User" "user_id"), w).
Proof. intros Ha. unfold status_and_assignee, assigned_to_id. by rewrite Ha. Qed.

(** The run of [handle_auto_resolve] on a ticket without assignee when
    nothing fails. *)
Lemma handle_auto_resolve_clean (ticket orig : Ticket)
    (params : gmap string json) (w : World) :
  pending w = [] →
  tickets (db w) !! ticket_id ticket = Some orig →
  assigned_to ticket = None →
  ∃ w', handle_auto_resolve ticket params w = (Ok true, w')
    ∧ pending w' = [] ∧ clock w' = clock w
    ∧ users (db w') = users (db w)
    ∧ tickets (db w') =
        <[ticket_id ticket := with_status "resolved" ticket]> (tickets (db w))
    ∧ history (db w') =
        history (db w) ++ [auto_resolve_entry (history (db w)) ticket params]
    ∧ (∃ i, interactions (db w') = interactions (db w) ++ [i]
            ∧ ti_ticket i = ticket_id ticket ∧ ti_user i = user ticket)
    ∧ resolutions (db w') =
        ensure_resolution (ticket_id ticket) (JStr "AUTO_RESOLVE")
                          (resolutions (db w))
    ∧ outbox (db w') =
        outbox (db w)
        ++ [Notify "notify_user_auto_resolution" (user ticket)
                   (ticket_id ticket) params;
            ApplyAsync "schedule_resolution_followup" (ticket_id ticket) None
                       (Countdown 86400)].
Proof.
  intros Hp Ho Ha. unfold handle_auto_resolve.
  rewrite run_bind, (run_status_and_assignee _ _ Ha). cbv zeta.
  rewrite run_bind.
  destruct (Ticket_save_spec (with_status "resolved" ticket) orig w Ho)
    as (r & w1 & -> & (Hc & Hu & Hi & Hh & Hres & Hout) & _ & _ & Htk & Hcl
        & _).
  destruct (Hcl Hp) as [-> Hp1]. rewrite Hp in Htk. specialize (Htk eq_refl).
  rewrite run_bind,
    (run_status_and_assignee (with_status "resolved" ticket) _ Ha).
  unfold ActionHistory_create, TicketInteraction_create.
  rewrite run_bind, run_write_clean by done.
  rewrite run_bind, run_write_clean by done.
  rewrite run_bind. unfold TicketResolution_get_or_create.
  rewrite run_bind, run_get_db. simpl.
  rewrite Hres. unfold ensure_resolution, call.
  destruct (resolutions (db w) !! ticket_id ticket) eqn:Hr.
  - rewrite run_ret. rewrite run_bind, run_write_clean by done.
    rewrite run_bind, run_write_clean by done.
    eexists. split; [reflexivity|]. simpl.
    rewrite Hc, Hu, Hi, Hh, Hres, Hout, Htk, <- app_assoc. split_and!; eauto.
  - rewrite run_bind, run_write_clean by done. rewrite run_ret.
    rewrite run_bind, run_write_clean by done.
    rewrite run_bind, run_write_clean by done.
    eexists. split; [reflexivity|]. simpl.
    rewrite Hc, Hu, Hi, Hh, Hres, Hout, Htk, <- app_assoc. split_and!; eauto.
Qed.

(** C6, the postconditions and the defect.  On a stored ticket without
    assignee, with no fault pending, AUTO_RESOLVE returns true and: the
    ticket is stored with status "resolved" and its other fields
    unchanged; exactly one entry is appended to the history, of type
    AUTO_RESOLVE, [rollback_possible], not rolled back, with
    [before_state] the status before and a null assignee and [after_state]
    the status "resolved" and a null assignee; one interaction of the
    ticket is appended; the ticket has one resolution row, the existing
    one or a new one for AUTO_RESOLVE; and the outbox gains the
    notification of the requester and one task
    [schedule_resolution_followup] with a countdown of 86400 seconds,
    which is 24 hours.  On a ticket that has an assignee none of this
    happens: taking [before_state] reads [assigned_to.user_id], which a
    user does not have, so the executor raises before its first write and
    the world is the one it started from, whatever the fault plan. *)
Theorem auto_resolve_postconditions
    (ticket : Ticket) (params : gmap string json) (w : World) :
  tickets (db w) !! ticket_id ticket = Some ticket →
  (∀ u, assigned_to ticket = Some u →
     handle_auto_resolve ticket params w
     = (Raise (AttributeError "User" "user_id"), w))
  ∧ (assigned_to ticket = None → pending w = [] →
     ∃ w' e i,
       handle_auto_resolve ticket params w = (Ok true, w')
       ∧ tickets (db w') =
           <[ticket_id ticket := with_status "resolved" ticket]>
             (tickets (db w))
       ∧ history (db w') = history (db w) ++ [e]
       ∧ action_type e = "AUTO_RESOLVE"
       ∧ ah_ticket e = ticket_id ticket
       ∧ rollback_possible e = true
       ∧ rolled_back e = false
       ∧ before_state e =
           Some {[ "status" := Some (status ticket);
                   "assigned_to_id" := None ]}
       ∧ after_state e =
           Some {[ "status" := Some "resolved";
                   "assigned_to_id" := None ]}
       ∧ interactions (db w') = interactions (db w) ++ [i]
       ∧ ti_ticket i = ticket_id ticket
       ∧ resolutions (db w') =
           match resolutions (db w) !! ticket_id ticket with
           | Some _ => resolutions (db w)
           | None =>
               <[ticket_id ticket :=
                   mkResolution (ticket_id ticket) (JStr "AUTO_RESOLVE") None
                                "" None None None false None ""]>
                 (resolutions (db w))
           end
       ∧ is_Some (resolutions (db w') !! ticket_id ticket)
       ∧ outbox (db w') =
           outbox (db w)
           ++ [Notify "notify_user_auto_resolution" (user ticket)
                      (ticket_id ticket) params;
               ApplyAsync "schedule_resolution_followup" (ticket_id ticket)
                          None (Countdown (24 * 3600))]).
Proof.
  intros Ho. split.
  - intros u Ha. unfold handle_auto_resolve.
    by rewrite run_bind, (run_status_and_assignee_assigned _ _ _ Ha).
  - intros Ha Hp.
    destruct (handle_auto_resolve_clean ticket ticket params w Hp Ho Ha)
      as (w' & Hrun & _ & _ & _ & Htk & Hh & (i & Hi & Hit & _) & Hres
          & Hout).
    exists w', (auto_resolve_entry (history (db w)) ticket params), i.
    split; [exact Hrun|]. split; [exact Htk|]. split; [exact Hh|].
    split; [reflexivity|]. split; [reflexivity|]. split; [reflexivity|].
    split; [reflexivity|]. split; [reflexivity|]. split; [reflexivity|].
    split; [exact Hi|]. split; [exact Hit|].
    rewrite Hres. unfold ensure_resolution.
    destruct (resolutions (db w) !! ticket_id ticket) eqn:E.
    + rewrite E. split; [reflexivity|]. split; [eauto | exact Hout].
    + rewrite lookup_insert_eq. split; [reflexivity|].
      split; [eauto | exact Hout].
Qed.

Lemma auto_resolve_postconditions_witness :
  (∃ w' e,
     handle_auto_resolve ticket_open steps_params world_open = (Ok true, w')
     ∧ history (db w') = [e]
     ∧ rollback_possible e = true
     ∧ tickets (db w') !! 1 = Some (with_status "resolved" ticket_open))
  ∧ handle_auto_resolve ticket_assigned steps_params world_assigned
    = (Raise (AttributeError "User" "user_id"), world_assigned).
Proof.
  split.
  - destruct (auto_resolve_postconditions ticket_open steps_params world_open
                eq_refl) as [_ Hpost].
    destruct (Hpost eq_refl eq_refl)
      as (w' & e & i & Hrun & Htk & Hh & _ & _ & Hrp & _).
    exists w', e. split; [exact Hrun|]. split; [exact Hh|].
    split; [exact Hrp|]. rewrite Htk. reflexivity.
  - destruct (auto_resolve_postconditions ticket_assigned steps_params
                world_assigned eq_refl) as [Hraise _].
    exact (Hraise "admin" eq_refl).
Defined.

(** ** Resolving a resolved ticket again *)

Lemma with_status_same (t : Ticket) : with_status (status t) t = t.
Proof. by destruct t. Qed.

(** C3, as the code has it.  Executing AUTO_RESOLVE on a stored ticket
    without assignee that is already resolved, with no fault pending,
    returns true and leaves the tickets as they are, but it is not a
    no-op: one more AUTO_RESOLVE entry is appended, whose [before_state]
    and [after_state] are the same snapshot with status "resolved",
    together with one more interaction, one more notification and one
    more follow-up task.  Only the resolution row is not duplicated. *)
Theorem auto_resolve_again_appends
    (ticket : Ticket) (params : gmap string json) (w : World) :
  pending w = [] →
  tickets (db w) !! ticket_id ticket = Some ticket →
  assigned_to ticket = None →
  status ticket = "resolved" →
  ∃ w' e,
    handle_auto_resolve ticket params w = (Ok true, w')
    ∧ tickets (db w') = tickets (db w)
    ∧ history (db w') = history (db w) ++ [e]
    ∧ action_type e = "AUTO_RESOLVE"
    ∧ before_state e = after_state e
    ∧ before_state e =
        Some {[ "status" := Some "resolved";
                "assigned_to_id" := assigned_to ticket ]}
    ∧ length (interactions (db w')) = S (length (interactions (db w)))
    ∧ length (outbox (db w')) = S (S (length (outbox (db w))))
    ∧ (∀ r, resolutions (db w) !! ticket_id ticket = Some r →
            resolutions (db w') = resolutions (db w)).
Proof.
  intros Hp Ho Ha Hs.
  destruct (handle_auto_resolve_clean ticket ticket params w Hp Ho Ha)
    as (w' & Hrun & _ & _ & _ & Htk & Hh & (i & Hi & _) & Hres & Hout).
  exists w', (auto_resolve_entry (history (db w)) ticket params).
  rewrite <- Hs, with_status_same in Htk.
  split; [exact Hrun|].
  split. { rewrite Htk. by apply insert_id. }
  split; [exact Hh|]. split; [reflexivity|].
  split. { simpl. by rewrite Hs. }
  split. { simpl. unfold unassigned_snapshot. by rewrite Hs, Ha. }
  split. { rewrite Hi, length_app. simpl. lia. }
  split. { rewrite Hout, length_app. simpl. lia. }
  intros r Hr. rewrite Hres. unfold ensure_resolution. by rewrite Hr.
Qed.

Lemma auto_resolve_again_appends_witness :
  ∃ w' e,
    handle_auto_resolve ticket1 steps_params (world1 [entry1] [])
      = (Ok true, w')
    ∧ history (db w') = [entry1; e]
    ∧ before_state e = after_state e.
Proof.
  destruct (auto_resolve_again_appends ticket1 steps_params
              (world1 [entry1] []) eq_refl eq_refl eq_refl eq_refl)
    as (w' & e & Hrun & _ & Hh & _ & Hba & _).
  exists w', e. split; [exact Hrun|]. split; [exact Hh | exact Hba].
Defined.

(** C3 fails as stated: the ticket is resolved and has its AUTO_RESOLVE
    entry; executing AUTO_RESOLVE again succeeds and is not a no-op, the
    history now holds a second AUTO_RESOLVE entry for the ticket. *)
Lemma auto_resolve_twice_duplicates :
  let w := world1 [entry1] [] in
  let out := handle_auto_resolve ticket1 steps_params w in
  stored_status 1 w = Some "resolved"
  ∧ out.1 = Ok true
  ∧ (action_type <$> history (db w)) = ["AUTO_RESOLVE"]
  ∧ (action_type <$> history (db out.2)) = ["AUTO_RESOLVE"; "AUTO_RESOLVE"]
  ∧ db out.2 ≠ db w.
Proof.
  vm_compute. split_and!; try reflexivity. discriminate.
Qed.

(** ** The follow-up check *)

(** The run of [handle_escalate] when nothing fails. *)
Lemma handle_escalate_clean (ticket orig : Ticket)
    (params : gmap string json) (w : World) :
  pending w = [] →
  tickets (db w) !! ticket_id ticket = Some orig →
  ∃ w', handle_escalate ticket params w = (Ok true, w')
    ∧ pending w' = [] ∧ clock w' = clock w
    ∧ tickets (db w') =
        <[ticket_id ticket := with_status "escalated" ticket]> (tickets (db w))
    ∧ history (db w') =
        history (db w) ++ [escalate_entry (history (db w)) ticket params]
    ∧ (∃ i, interactions (db w') = interactions (db w) ++ [i])
    ∧ resolutions (db w') = resolutions (db w)
    ∧ outbox (db w') =
        outbox (db w)
        ++ [Notify "notify_escalation" (user ticket) (ticket_id ticket) params].
Proof.
  intros Hp Ho. unfold handle_escalate. cbv zeta. rewrite run_bind.
  destruct (Ticket_save_spec (with_status "escalated" ticket) orig w Ho)
    as (r & w1 & -> & (Hc & Hu & Hi & Hh & Hres & Hout) & _ & _ & Htk & Hcl
        & _).
  destruct (Hcl Hp) as [-> Hp1]. rewrite Hp in Htk. specialize (Htk eq_refl).
  unfold ActionHistory_create, TicketInteraction_create, call.
  rewrite run_bind, run_write_clean by done.
  rewrite run_bind, run_write_clean by done.
  rewrite run_bind, run_write_clean by done.
  eexists. split; [reflexivity|]. simpl.
  rewrite Hc, Hi, Hh, Hres, Hout, Htk. split_and!; eauto.
Qed.

Lemma check_ticket_followup_eq (tid : Z) (params : gmap string json)
    (t : Ticket) (w : World) :
  tickets (db w) !! tid = Some t →
  check_ticket_followup tid params w =
  if bool_decide (status t ∈ ["resolved"; "closed"]) then (Ok tt, w)
  else try_except (handle_escalate t followup_params;; mret tt)
                  (λ _, mret tt) w.
Proof.
  intros Ht. unfold check_ticket_followup, try_except at 1.
  rewrite run_bind, (run_Ticket_get _ _ _ Ht).
  by destruct (bool_decide _).
Qed.



(** ** Feedback *)

Lemma confirmed_record_feedback data t r :
  resolution_confirmed (record_feedback data t r)
  = fb_resolution_confirmed data.
Proof. reflexivity. Qed.

Lemma run_get_or_create_clean (t : Ticket) (action : json) (w : World) :
  pending w = [] →
  ∃ w', TicketResolution_get_or_create t action w
        = (Ok (default (mkResolution (ticket_id t) action None "" None None
                                     None false None "")
                       (resolutions (db w) !! ticket_id t),
               bool_decide (resolutions (db w) !! ticket_id t = None)), w')
    ∧ pending w' = [] ∧ clock w' = clock w
    ∧ tickets (db w') = tickets (db w)
    ∧ ∀ r, <[ticket_id t := r]> (resolutions (db w'))
           = <[ticket_id t := r]> (resolutions (db w)).
Proof.
  intros Hp. unfold TicketResolution_get_or_create.
  rewrite run_bind, run_get_db.
  destruct (resolutions (db w) !! ticket_id t) eqn:E.
  - exists w. rewrite run_ret. by split_and!.
  - rewrite run_bind, run_write_clean by done. rewrite run_ret.
    eexists. split; [reflexivity|]. simpl. split_and!; try done.
    intros r. apply insert_insert_eq.
Qed.

(** C8.  On a stored ticket, with no fault pending (and the resolution
    row, if any, filed under its ticket): feedback with
    [resolution_confirmed] false is answered with 200, and the ticket's
    resolution row has [reopened] true, [reopened_at] the current time and
    [reopened_reason] the feedback text, or the default text when none was
    sent, while the ticket is stored with status "escalated".  Feedback
    with [resolution_confirmed] true and [satisfaction_score] 5, on a
    resolution that was not reopened, is answered with 200, leaves
    [reopened] false, gives [was_successful] true, and leaves the tickets
    as they are. *)
Theorem feedback_reopening
    (data : Feedback) (tid : Z) (t : Ticket) (w : World) :
  tickets (db w) !! tid = Some t →
  ticket_id t = tid →
  pending w = [] →
  (∀ r0, resolutions (db w) !! tid = Some r0 → tr_ticket r0 = tid) →
  (fb_resolution_confirmed data = Some false →
   ∃ resp w' r,
     submit_resolution_feedback data tid w = (Ok resp, w')
     ∧ http_status resp = 200
     ∧ resolutions (db w') !! tid = Some r
     ∧ reopened r = true
     ∧ reopened_at r = Some (clock w)
     ∧ reopened_reason r =
         default "User reported issue not resolved" (fb_feedback_text data)
     ∧ tickets (db w') = <[tid := with_status "escalated" t]> (tickets (db w)))
  ∧ (fb_resolution_confirmed data = Some true →
     fb_satisfaction_score data = Some 5 →
     (∀ r0, resolutions (db w) !! tid = Some r0 → reopened r0 = false) →
     ∃ resp w' r,
       submit_resolution_feedback data tid w = (Ok resp, w')
       ∧ http_status resp = 200
       ∧ resolutions (db w') !! tid = Some r
       ∧ reopened r = false
       ∧ was_successful r = Some true
       ∧ tickets (db w') = tickets (db w)).
Proof.
  intros Ht Hid Hp Hkey.
  assert (Hrow : tr_ticket (feedback_row tid (resolutions (db w))) = tid).
  { unfold feedback_row. destruct (resolutions (db w) !! tid) eqn:E; eauto. }
  destruct (run_get_or_create_clean t (JStr "MANUAL") w Hp)
    as (w1 & Hgc & Hp1 & Hc1 & Htk1 & Hres1).
  rewrite Hid in Hgc, Hres1.
  assert (Hdef : default (mkResolution tid (JStr "MANUAL") None "" None None
                            None false None "") (resolutions (db w) !! tid)
                 = feedback_row tid (resolutions (db w))).
  { unfold feedback_row. by destruct (resolutions (db w) !! tid). }
  rewrite Hdef in Hgc.
  split.
  - intros Hconf. unfold submit_resolution_feedback, try_except.
    rewrite run_bind, (run_Ticket_get _ _ _ Ht).
    rewrite run_bind, Hgc. rewrite run_bind, run_now. cbv zeta.
    rewrite run_bind, confirmed_record_feedback, Hconf.
    rewrite bool_decide_eq_true_2 by done.
    rewrite run_bind, run_now, run_bind.
    assert (Ho : tickets (db w1) !! ticket_id (with_status "escalated" t)
                 = Some t) by (simpl; by rewrite Htk1, Hid).
    destruct (Ticket_save_spec (with_status "escalated" t) t w1 Ho)
      as (r & w2 & -> & (Hc & Hu & Hi & Hh & Hres & Hout) & _ & _ & Htk & Hcl
        & _).
    destruct (Hcl Hp1) as [-> Hp2].
    rewrite Hp1 in Htk. specialize (Htk eq_refl). simpl in Htk.
    rewrite run_ret. unfold TicketResolution_save.
    rewrite run_bind, run_write_clean by done. rewrite run_ret.
    eexists _, _, _. split; [reflexivity|]. simpl.
    rewrite Hrow, lookup_insert_eq, Htk, Htk1, Hid, Hc1. split_and!; done.
  - intros Hconf Hscore Hnot. unfold submit_resolution_feedback, try_except.
    rewrite run_bind, (run_Ticket_get _ _ _ Ht).
    rewrite run_bind, Hgc. rewrite run_bind, run_now. cbv zeta.
    rewrite run_bind, confirmed_record_feedback, Hconf.
    rewrite bool_decide_eq_false_2 by done. rewrite run_ret.
    unfold TicketResolution_save.
    rewrite run_bind, run_write_clean by done. rewrite run_ret.
    eexists _, _, _. split; [reflexivity|]. simpl.
    rewrite Hrow, lookup_insert_eq.
    assert (Hre : reopened (feedback_row tid (resolutions (db w))) = false).
    { unfold feedback_row. destruct (resolutions (db w) !! tid) eqn:E; eauto. }
    split_and!; try done.
    unfold was_successful. simpl. rewrite Hre, Hconf. done.
Qed.

Lemma feedback_reopening_witness :
  (∃ resp w' r,
     submit_resolution_feedback feedback_still_broken 1 (world1 [entry1] [])
       = (Ok resp, w')
     ∧ resolutions (db w') !! 1 = Some r
     ∧ reopened r = true
     ∧ reopened_reason r = "still broken"
     ∧ tickets (db w') !! 1 = Some (with_status "escalated" ticket1))
  ∧ (∃ resp w' r,
       submit_resolution_feedback feedback_happy 1 (world1 [entry1] [])
         = (Ok resp, w')
       ∧ resolutions (db w') !! 1 = Some r
       ∧ reopened r = false
       ∧ was_successful r = Some true).
Proof.
  assert (Hkey : ∀ r0, resolutions (db (world1 [entry1] [])) !! 1 = Some r0 →
                       tr_ticket r0 = 1) by (intros r0; discriminate).
  split.
  - destruct (feedback_reopening feedback_still_broken 1 ticket1
                (world1 [entry1] []) eq_refl eq_refl eq_refl Hkey)
      as [Hre _].
    destruct (Hre eq_refl) as (resp & w' & r & Hrun & _ & Hr & Ho & _ & Hwhy & Htk).
    exists resp, w', r. split; [exact Hrun|]. split; [exact Hr|].
    split; [exact Ho|]. split; [exact Hwhy|]. rewrite Htk. reflexivity.
  - destruct (feedback_reopening feedback_happy 1 ticket1
                (world1 [entry1] []) eq_refl eq_refl eq_refl Hkey)
      as [_ Hok].
    destruct (Hok eq_refl eq_refl) as (resp & w' & r & Hrun & _ & Hr & Ho & Hs & _).
    { intros r0. discriminate. }
    exists resp, w', r. split; [exact Hrun|]. split; [exact Hr|].
    split; [exact Ho | exact Hs].
Defined.

(** ** The dispatch task *)

Lemma dispatch_reaches_handler (value : AgentAction → string)
    (a : AgentAction) (tid : Z) (params : gmap string json) :
  (∀ x y, value x = value y → x = y) →
  execute_autonomous_action value tid (value a) params =
  try_except (ticket ← Ticket_get tid; handler_of a ticket params)
             (λ _, mret false).
Proof.
  intros Hinj. unfold execute_autonomous_action.
  assert (Heq : ∀ x, String.eqb (value a) (value x) = bool_decide (a = x)).
  { intros x. destruct (String.eqb_spec (value a) (value x)) as [E|E].
    - apply Hinj in E. by rewrite bool_decide_eq_true_2.
    - rewrite bool_decide_eq_false_2; [done|]. by intros ->. }
  rewrite !Heq. by destruct a.
Qed.

(** * Further properties of the same code *)

(** ** Identifiers and the history *)

Lemma fresh_id_bound (h : list ActionHistory) (e : ActionHistory) :
  e ∈ h → (id e < fresh_id h)%nat.
Proof.
  unfold fresh_id. induction h as [|b h IH]; [by intros ?%elem_of_nil|].
  rewrite elem_of_cons.
  change (foldr Nat.max 0%nat (id <$> b :: h))
    with (Nat.max (id b) (foldr Nat.max 0%nat (id <$> h))).
  intros [-> | He]; [lia|]. specialize (IH He). lia.
Qed.

Lemma fresh_id_fresh (h : list ActionHistory) :
  find_action (fresh_id h) h = None.
Proof.
  unfold find_action. destruct (List.find _ h) as [e|] eqn:E; [|done].
  apply List.find_some in E as [Hin Heq].
  apply Nat.eqb_eq in Heq. apply list_elem_of_In in Hin.
  apply fresh_id_bound in Hin. lia.
Qed.

Lemma find_action_created (h : list ActionHistory) (e : ActionHistory) :
  id e = fresh_id h → find_action (fresh_id h) (h ++ [e]) = Some e.
Proof. intros He. apply find_action_app_None; [apply fresh_id_fresh | done]. Qed.



Lemma length_upsert_stored a h :
  is_Some (find_action (id a) h) → length (upsert_action a h) = length h.
Proof.
  intros [x Hx]. unfold upsert_action. rewrite Hx. apply length_fmap.
Qed.

(** ** The rollback endpoint and the dispatcher, once more *)

Lemma run_execute_rollback_no_ticket a by_user reason w :
  tickets (db w) !! ah_ticket a = None →
  RollbackManager.execute_rollback a by_user reason w
  = (Raise (DoesNotExist "Ticket"), w).
Proof.
  intros Hn. unfold RollbackManager.execute_rollback, Ticket_get.
  rewrite !run_bind, run_get_db. by rewrite Hn.
Qed.

Lemma restore_result_auto a t :
  action_type a = "AUTO_RESOLVE" →
  restore_result a t
  = Some (status_result (snapshot_status "in-progress" a) t).
Proof. unfold restore_result. by intros ->. Qed.

Lemma restore_result_escalate a t :
  action_type a = "ESCALATE" →
  restore_result a t = Some (status_result (snapshot_status "new" a) t).
Proof. unfold restore_result. by intros ->. Qed.

Lemma restore_result_assign a t :
  action_type a = "ASSIGN_TO_TEAM" →
  restore_result a t = Some (assignee_result a t).
Proof. unfold restore_result. by intros ->. Qed.


(** X1.  [rollback_action] always answers, with one of the statuses 200, 400,
    403, 404 and 500, whatever fails underneath.  The answers 400, 403 and
    404 leave the world as it was; every answer other than 200 leaves the
    entries as they were; and after 200 the entry is stored as rolled
    back.  (The hypothesis is the foreign key: the ticket stored under an
    entry's ticket id carries that id.) *)
Theorem rollback_action_marks_only_on_200
    (request : RollbackRequest) (i : nat) (w : World) :
  (∀ a t, find_action i (history (db w)) = Some a →
          tickets (db w) !! ah_ticket a = Some t →
          ticket_id t = ah_ticket a) →
  ∃ r w', rollback_action request i w = (Ok r, w')
    ∧ http_status r ∈ [200; 400; 403; 404; 500]
    ∧ (http_status r ∈ [400; 403; 404] → w' = w)
    ∧ (http_status r ≠ 200 → history (db w') = history (db w))
    ∧ (http_status r = 200 →
       ∃ a, find_action i (history (db w')) = Some a ∧ rolled_back a = true).
Proof.
  intros Hwf.
  assert (Hfin : ∀ (code : Z) body,
    code ∈ [400; 403; 404; 500] →
    ∃ r w', (Ok (mkResponse code body), w) = (Ok r, w')
      ∧ http_status r ∈ [200; 400; 403; 404; 500]
      ∧ (http_status r ∈ [400; 403; 404] → w' = w)
      ∧ (http_status r ≠ 200 → history (db w') = history (db w))
      ∧ (http_status r = 200 →
         ∃ a, find_action i (history (db w')) = Some a
              ∧ rolled_back a = true)).
  { intros code body Hc. eexists _, _. split; [reflexivity|]. simpl.
    split; [rewrite elem_of_cons; by right|].
    split; [reflexivity|]. split; [reflexivity|].
    intros ->. revert Hc. rewrite !elem_of_cons, elem_of_nil.
    intros [?|[?|[?|[?|[]]]]]; discriminate. }
  destruct (is_staff request || has_role request) eqn:Hperm.
  2: { unfold rollback_action.
       destruct (is_staff request), (has_role request); try discriminate.
       simpl. apply Hfin. rewrite !elem_of_cons. tauto. }
  rewrite (rollback_action_permitted _ _ Hperm). unfold try_except.
  rewrite run_bind. unfold ActionHistory_get. rewrite run_bind, run_get_db.
  destruct (find_action i (history (db w))) as [a|] eqn:Hf.
  2: { apply Hfin. rewrite !elem_of_cons. tauto. }
  rewrite run_ret. destruct (rolled_back a) eqn:Hrb.
  { apply Hfin. rewrite !elem_of_cons. tauto. }
  destruct (negb _).
  { apply Hfin. rewrite !elem_of_cons. tauto. }
  rewrite run_bind.
  destruct (tickets (db w) !! ah_ticket a) as [t|] eqn:Ht.
  2: { rewrite (run_execute_rollback_no_ticket _ _ _ _ Ht).
       apply Hfin. rewrite !elem_of_cons. tauto. }
  destruct (execute_rollback_spec a t (req_user request)
              (default "Manual rollback by admin" (req_reason request))
              w Ht (Hwf a t eq_refl Ht)) as (b & w' & -> & Hout).
  destruct (restore_result a t) as [ro|].
  2: { destruct Hout as [-> ->]. apply Hfin. rewrite !elem_of_cons. tauto. }
  destruct b.
  - destruct (ro_done _ _ _ _ _ _ _ _ Hout eq_refl) as (t' & _ & _ & _ & Hh).
    eexists _, _. split; [reflexivity|]. simpl.
    split; [rewrite elem_of_cons; by left|].
    split. { rewrite !elem_of_cons, elem_of_nil.
             intros [?|[?|[?|[]]]]; discriminate. }
    split; [intros Hne; by destruct Hne|].
    intros _. eexists. split.
    + rewrite Hh, <- (find_action_id _ _ _ Hf).
      apply (find_upsert_action (mark_rolled_back _ _ _ a)).
    + reflexivity.
  - destruct (ro_failed _ _ _ _ _ _ _ _ Hout eq_refl) as [Hh _].
    eexists _, _. split; [reflexivity|]. simpl.
    split; [rewrite !elem_of_cons; tauto|].
    split. { rewrite !elem_of_cons, elem_of_nil.
             intros [?|[?|[?|[]]]]; discriminate. }
    split; [intros _; exact Hh|]. discriminate.
Qed.

Lemma rollback_action_marks_only_on_200_witness :
  ∃ r w', rollback_action admin_request 1 (world1 [entry1] []) = (Ok r, w')
    ∧ (http_status r ≠ 200 → history (db w') = [entry1]).
Proof.
  destruct (rollback_action_marks_only_on_200 admin_request 1
              (world1 [entry1] []))
    as (r & w' & Hrun & _ & _ & Hkeep & _).
  - intros a t Ha Ht. vm_compute in Ha. injection Ha as <-.
    vm_compute in Ht. injection Ht as <-. reflexivity.
  - exists r, w'. split; [exact Hrun | exact Hkeep].
Defined.

(** X2.  [can_rollback] accepts SCHEDULE_FOLLOWUP, but [execute_rollback] has no
    handler for it: on a stored entry of that type it returns false and
    writes nothing, so the endpoint lets the request past its eligibility
    test and then answers 500 "Rollback failed", the entry staying as it
    was. *)
Theorem eligible_without_handler
    (a : ActionHistory) (t : Ticket) (request : RollbackRequest)
    (by_user : uid) (reason : string) (w : World) :
  action_type a = "SCHEDULE_FOLLOWUP" →
  tickets (db w) !! ah_ticket a = Some t →
  is_staff request || has_role request = true →
  find_action (id a) (history (db w)) = Some a →
  rolled_back a = false →
  RollbackManager.can_rollback (action_type a) = true
  ∧ RollbackManager.execute_rollback a by_user reason w = (Ok false, w)
  ∧ rollback_action request (id a) w
    = (Ok (mkResponse 500 [("error", JStr "Rollback failed")]), w).
Proof.
  intros Hty Ht Hperm Hf Hrb.
  assert (Hex : ∀ u r, RollbackManager.execute_rollback a u r w = (Ok false, w)).
  { intros u r. unfold RollbackManager.execute_rollback.
    rewrite run_bind, (run_Ticket_get _ _ _ Ht). by rewrite Hty. }
  split; [by rewrite Hty|]. split; [apply Hex|].
  rewrite (rollback_action_permitted _ _ Hperm). unfold try_except.
  rewrite run_bind, (run_ActionHistory_get _ _ _ Hf), Hrb.
  assert (Hcan : negb (RollbackManager.can_rollback (action_type a)) = false)
    by (by rewrite Hty).
  rewrite Hcan. cbv zeta. rewrite run_bind, Hex. reflexivity.
Qed.

Lemma eligible_without_handler_witness :
  RollbackManager.can_rollback "SCHEDULE_FOLLOWUP" = true
  ∧ rollback_action admin_request 1 (world1 [entry_followup] [true])
    = (Ok (mkResponse 500 [("error", JStr "Rollback failed")]),
       world1 [entry_followup] [true]).
Proof.
  destruct (eligible_without_handler entry_followup ticket1 admin_request
              "admin" "Incorrect resolution" (world1 [entry_followup] [true])
              eq_refl eq_refl eq_refl eq_refl eq_refl)
    as (Hcan & _ & Hview).
  split; [exact Hcan | exact Hview].
Defined.

(** X3.  Rolling back an ASSIGN_TO_TEAM entry whose snapshot names a user that
    is no longer on record returns false and attempts no write: ticket,
    entry and fault plan are the ones it started from. *)
Theorem rollback_unknown_assignee_changes_nothing
    (a : ActionHistory) (t : Ticket) (by_user : uid) (reason : string)
    (w : World) (m : snapshot) (u : uid) :
  action_type a = "ASSIGN_TO_TEAM" →
  tickets (db w) !! ah_ticket a = Some t →
  ticket_id t = ah_ticket a →
  before_state a = Some m →
  m !! "assigned_to_id" = Some (Some u) →
  u ≠ "" →
  u ∉ users (db w) →
  RollbackManager.execute_rollback a by_user reason w = (Ok false, w).
Proof.
  intros Hty Ht Hid Hb Hm Hu Hnot.
  destruct (execute_rollback_spec a t by_user reason w Ht Hid)
    as (b & w' & Hrun & Hout).
  rewrite (restore_result_assign _ _ Hty) in Hout.
  assert (Hr : assignee_result a t = Raise (FieldError "user_id")).
  { unfold assignee_result.
    by rewrite (snapshot_assignee_present a m u Hb Hm Hu). }
  rewrite Hr in Hout.
  destruct (ro_no_restore _ _ _ _ _ _ _ _ Hout) as [-> ->]; [|exact Hrun].
  intros t0. discriminate.
Qed.

Lemma rollback_unknown_assignee_changes_nothing_witness :
  RollbackManager.execute_rollback entry_assign_gone "admin" "Wrong team"
    (world1 [entry_assign_gone] [])
  = (Ok false, world1 [entry_assign_gone] []).
Proof.
  apply (rollback_unknown_assignee_changes_nothing entry_assign_gone ticket1
           "admin" "Wrong team" (world1 [entry_assign_gone] [])
           {[ "status" := Some "new"; "assigned_to_id" := Some "gone" ]}
           "gone" eq_refl eq_refl eq_refl eq_refl eq_refl).
  - discriminate.
  - intros Hin. vm_compute in Hin. discriminate.
Defined.



(** ** An executor and then its rollback *)

Lemma handle_assign_to_team_clean (ticket orig : Ticket)
    (params : gmap string json) (w : World) :
  pending w = [] →
  tickets (db w) !! ticket_id ticket = Some orig →
  assigned_to ticket = None →
  ∃ w', handle_assign_to_team ticket params w = (Ok true, w')
    ∧ pending w' = [] ∧ clock w' = clock w
    ∧ users (db w') = users (db w)
    ∧ tickets (db w') =
        <[ticket_id ticket := with_status "assigned" ticket]> (tickets (db w))
    ∧ history (db w') =
        history (db w) ++ [assign_entry (history (db w)) ticket params]
    ∧ (∃ i, interactions (db w') = interactions (db w) ++ [i])
    ∧ resolutions (db w') = resolutions (db w)
    ∧ outbox (db w') = outbox (db w).
Proof.
  intros Hp Ho Ha. unfold handle_assign_to_team.
  rewrite run_bind, (run_status_and_assignee _ _ Ha). cbv zeta.
  rewrite run_bind.
  destruct (Ticket_save_spec (with_status "assigned" ticket) orig w Ho)
    as (r & w1 & -> & (Hc & Hu & Hi & Hh & Hres & Hout) & _ & _ & Htk & Hcl
        & _).
  destruct (Hcl Hp) as [-> Hp1]. rewrite Hp in Htk. specialize (Htk eq_refl).
  rewrite run_bind,
    (run_status_and_assignee (with_status "assigned" ticket) _ Ha).
  unfold ActionHistory_create, TicketInteraction_create.
  rewrite run_bind, run_write_clean by done.
  rewrite run_bind, run_write_clean by done.
  eexists. split; [reflexivity|]. simpl.
  rewrite Hc, Hu, Hi, Hh, Hres, Hout, Htk. split_and!; eauto.
Qed.

Lemma with_status_back (s : string) (t : Ticket) :
  with_status (status t) (with_status s t) = t.
Proof. by destruct t. Qed.

Lemma with_assigned_to_same (t : Ticket) :
  with_assigned_to (assigned_to t) t = t.
Proof. by destruct t. Qed.

Lemma unassigned_snapshot_status (s : string) :
  unassigned_snapshot s !! "status" = Some (Some s).
Proof. unfold unassigned_snapshot. apply lookup_insert_eq. Qed.

Lemma unassigned_snapshot_assignee (s : string) :
  unassigned_snapshot s !! "assigned_to_id" = Some None.
Proof.
  unfold unassigned_snapshot. rewrite lookup_insert_ne by done.
  apply lookup_singleton_eq.
Qed.

Lemma status_only_status (t : Ticket) :
  status_only t !! "status" = Some (Some (status t)).
Proof. unfold status_only. apply lookup_singleton_eq. Qed.

(** X5.  With no fault pending, [handle_auto_resolve] on a stored ticket
    without assignee followed by [execute_rollback] of the entry it has just recorded
    succeeds and leaves the ticket table exactly as it was before the
    resolution; the entry is stored as rolled back, and stays in the
    history (one entry more than at the start). *)
Theorem auto_resolve_rollback_round_trip
    (t : Ticket) (params : gmap string json) (by_user : uid)
    (reason : string) (w : World) :
  pending w = [] →
  tickets (db w) !! ticket_id t = Some t →
  assigned_to t = None →
  ∃ w1 e w2,
    handle_auto_resolve t params w = (Ok true, w1)
    ∧ find_action (fresh_id (history (db w))) (history (db w1)) = Some e
    ∧ action_type e = "AUTO_RESOLVE"
    ∧ RollbackManager.execute_rollback e by_user reason w1 = (Ok true, w2)
    ∧ tickets (db w2) = tickets (db w)
    ∧ find_action (id e) (history (db w2))
      = Some (mark_rolled_back (clock w) by_user reason e)
    ∧ length (history (db w2)) = S (length (history (db w))).
Proof.
  intros Hp Ho Ha.
  destruct (handle_auto_resolve_clean t t params w Hp Ho Ha)
    as (w1 & Hrun & Hp1 & Hc1 & Hu1 & Htk1 & Hh1 & _).
  set (e := auto_resolve_entry (history (db w)) t params) in *.
  assert (Hfind : find_action (fresh_id (history (db w))) (history (db w1))
                  = Some e).
  { rewrite Hh1. by apply find_action_created. }
  assert (Ht1 : tickets (db w1) !! ah_ticket e
                = Some (with_status "resolved" t)).
  { rewrite Htk1. apply lookup_insert_eq. }
  destruct (execute_rollback_spec e (with_status "resolved" t) by_user reason
              w1 Ht1 eq_refl) as (b & w2 & Hrb & Hout).
  assert (Hro : restore_result e (with_status "resolved" t)
                = Some (Ok t)).
  { rewrite (restore_result_auto e _ eq_refl).
    rewrite (snapshot_status_present "in-progress" e
               (unassigned_snapshot (status t)) (status t) eq_refl
               (unassigned_snapshot_status (status t))).
    unfold status_result. by rewrite (with_status_back "resolved" t). }
  rewrite Hro in Hout.
  assert (Hb : b = true) by (apply (ro_clean _ _ _ _ _ _ _ _ Hout Hp1); eauto).
  subst b.
  destruct (ro_done _ _ _ _ _ _ _ _ Hout eq_refl)
    as (t' & [= <-] & Htk2 & _ & Hh2).
  exists w1, e, w2.
  split; [exact Hrun|]. split; [exact Hfind|]. split; [reflexivity|].
  split; [exact Hrb|]. split; [|split].
  - rewrite Htk2, Htk1, insert_insert_eq. by apply insert_id.
  - rewrite Hh2, Hc1. apply (find_upsert_action (mark_rolled_back _ _ _ e)).
  - rewrite Hh2, length_upsert_stored.
    + rewrite Hh1, length_app. simpl. lia.
    + change (id (mark_rolled_back (clock w1) by_user reason e))
        with (fresh_id (history (db w))).
      rewrite Hfind. eauto.
Qed.

Lemma auto_resolve_rollback_round_trip_witness :
  ∃ w1 e w2,
    handle_auto_resolve ticket_open steps_params world_open = (Ok true, w1)
    ∧ RollbackManager.execute_rollback e "admin" "Incorrect resolution" w1
      = (Ok true, w2)
    ∧ tickets (db w2) = {[ 1 := ticket_open ]}.
Proof.
  destruct (auto_resolve_rollback_round_trip ticket_open steps_params "admin"
              "Incorrect resolution" world_open eq_refl eq_refl eq_refl)
    as (w1 & e & w2 & Hrun & _ & _ & Hrb & Htk & _).
  exists w1, e, w2. split; [exact Hrun|]. split; [exact Hrb | exact Htk].
Defined.

(** X6.  With no fault pending, [handle_escalate] on a stored ticket stores
    the status "escalated", and [execute_rollback] of the entry it has
    recorded brings the ticket table back to what it was before the
    escalation. *)
Theorem escalate_rollback_round_trip
    (t : Ticket) (params : gmap string json) (by_user : uid)
    (reason : string) (w : World) :
  pending w = [] →
  tickets (db w) !! ticket_id t = Some t →
  ∃ w1 e w2,
    handle_escalate t params w = (Ok true, w1)
    ∧ find_action (fresh_id (history (db w))) (history (db w1)) = Some e
    ∧ action_type e = "ESCALATE"
    ∧ stored_status (ticket_id t) w1 = Some "escalated"
    ∧ RollbackManager.execute_rollback e by_user reason w1 = (Ok true, w2)
    ∧ tickets (db w2) = tickets (db w)
    ∧ find_action (id e) (history (db w2))
      = Some (mark_rolled_back (clock w) by_user reason e).
Proof.
  intros Hp Ho.
  destruct (handle_escalate_clean t t params w Hp Ho)
    as (w1 & Hrun & Hp1 & Hc1 & Htk1 & Hh1 & _).
  set (e := escalate_entry (history (db w)) t params) in *.
  assert (Hfind : find_action (fresh_id (history (db w))) (history (db w1))
                  = Some e).
  { rewrite Hh1. by apply find_action_created. }
  assert (Ht1 : tickets (db w1) !! ah_ticket e
                = Some (with_status "escalated" t)).
  { rewrite Htk1. apply lookup_insert_eq. }
  destruct (execute_rollback_spec e (with_status "escalated" t) by_user reason
              w1 Ht1 eq_refl) as (b & w2 & Hrb & Hout).
  assert (Hro : restore_result e (with_status "escalated" t)
                = Some (Ok t)).
  { rewrite (restore_result_escalate e _ eq_refl).
    rewrite (snapshot_status_present "new" e (status_only t)
               (status t) eq_refl (status_only_status t)).
    unfold status_result. by rewrite (with_status_back "escalated" t). }
  rewrite Hro in Hout.
  assert (Hb : b = true) by (apply (ro_clean _ _ _ _ _ _ _ _ Hout Hp1); eauto).
  subst b.
  destruct (ro_done _ _ _ _ _ _ _ _ Hout eq_refl)
    as (t' & [= <-] & Htk2 & _ & Hh2).
  exists w1, e, w2.
  split; [exact Hrun|]. split; [exact Hfind|]. split; [reflexivity|].
  split. { unfold stored_status. change (ticket_id t) with (ah_ticket e).
           by rewrite Ht1. }
  split; [exact Hrb|]. split.
  - rewrite Htk2, Htk1, insert_insert_eq. by apply insert_id.
  - rewrite Hh2, Hc1. apply (find_upsert_action (mark_rolled_back _ _ _ e)).
Qed.

Lemma escalate_rollback_round_trip_witness :
  ∃ w1 e w2,
    handle_escalate ticket_open ∅ world_open = (Ok true, w1)
    ∧ stored_status 1 w1 = Some "escalated"
    ∧ RollbackManager.execute_rollback e "admin" "Not urgent" w1
      = (Ok true, w2)
    ∧ tickets (db w2) = {[ 1 := ticket_open ]}.
Proof.
  destruct (escalate_rollback_round_trip ticket_open ∅ "admin" "Not urgent"
              world_open eq_refl eq_refl)
    as (w1 & e & w2 & Hrun & _ & _ & Hst & Hrb & Htk & _).
  exists w1, e, w2. split; [exact Hrun|]. split; [exact Hst|].
  split; [exact Hrb | exact Htk].
Defined.

(** X7.  The team assignment is not undone by its rollback.  With no fault
    pending, [handle_assign_to_team] on a stored ticket without assignee
    snapshots the status and the null assignee and sets the status to
    "assigned"; the rollback of its entry succeeds but restores the
    assignee only, so the ticket table is the one the assignment left and
    the status is still "assigned". *)
Theorem assign_rollback_keeps_status
    (t : Ticket) (params : gmap string json) (by_user : uid)
    (reason : string) (w : World) :
  pending w = [] →
  tickets (db w) !! ticket_id t = Some t →
  assigned_to t = None →
  ∃ w1 e w2,
    handle_assign_to_team t params w = (Ok true, w1)
    ∧ find_action (fresh_id (history (db w))) (history (db w1)) = Some e
    ∧ action_type e = "ASSIGN_TO_TEAM"
    ∧ before_state e
      = Some {[ "status" := Some (status t); "assigned_to_id" := None ]}
    ∧ tickets (db w1) = <[ticket_id t := with_status "assigned" t]> (tickets (db w))
    ∧ RollbackManager.execute_rollback e by_user reason w1 = (Ok true, w2)
    ∧ tickets (db w2) = tickets (db w1)
    ∧ stored_status (ticket_id t) w2 = Some "assigned".
Proof.
  intros Hp Ho Ha.
  destruct (handle_assign_to_team_clean t t params w Hp Ho Ha)
    as (w1 & Hrun & Hp1 & Hc1 & Hu1 & Htk1 & Hh1 & _).
  set (e := assign_entry (history (db w)) t params) in *.
  assert (Hfind : find_action (fresh_id (history (db w))) (history (db w1))
                  = Some e).
  { rewrite Hh1. by apply find_action_created. }
  set (t1 := with_status "assigned" t) in *.
  assert (Ht1 : tickets (db w1) !! ah_ticket e = Some t1).
  { rewrite Htk1. apply lookup_insert_eq. }
  destruct (execute_rollback_spec e t1 by_user reason w1 Ht1 eq_refl)
    as (b & w2 & Hrb & Hout).
  assert (Hro : restore_result e t1 = Some (Ok t1)).
  { rewrite (restore_result_assign e _ eq_refl). f_equal.
    unfold assignee_result. rewrite (snapshot_assignee_absent e).
    - f_equal. rewrite <- (with_assigned_to_same t1) at 2. subst t1. simpl.
      by rewrite Ha.
    - right. exists (unassigned_snapshot (status t)).
      split; [reflexivity|]. right. left.
      apply unassigned_snapshot_assignee. }
  rewrite Hro in Hout.
  assert (Hb : b = true) by (apply (ro_clean _ _ _ _ _ _ _ _ Hout Hp1); eauto).
  subst b.
  destruct (ro_done _ _ _ _ _ _ _ _ Hout eq_refl)
    as (t' & [= <-] & Htk2 & _ & Hh2).
  assert (Hsame : tickets (db w2) = tickets (db w1)).
  { rewrite Htk2. by apply insert_id. }
  exists w1, e, w2.
  split; [exact Hrun|]. split; [exact Hfind|]. split; [reflexivity|].
  split; [reflexivity|]. split; [exact Htk1|]. split; [exact Hrb|].
  split; [exact Hsame|].
  unfold stored_status. rewrite Hsame.
  change (ticket_id t) with (ah_ticket e). by rewrite Ht1.
Qed.

Lemma assign_rollback_keeps_status_witness :
  ∃ w1 e w2,
    handle_assign_to_team ticket_open ∅ world_open = (Ok true, w1)
    ∧ RollbackManager.execute_rollback e "admin" "Wrong team" w1
      = (Ok true, w2)
    ∧ stored_status 1 w2 = Some "assigned".
Proof.
  destruct (assign_rollback_keeps_status ticket_open ∅ "admin" "Wrong team"
              world_open eq_refl eq_refl eq_refl)
    as (w1 & e & w2 & Hrun & _ & _ & _ & _ & Hrb & _ & Hst).
  exists w1, e, w2. split; [exact Hrun|]. split; [exact Hrb | exact Hst].
Defined.

(** ** The other executors *)

(** X8.  The follow-up check has no memory.  Fired twice on a ticket that is
    neither resolved nor closed, with no fault pending, it escalates
    twice: two ESCALATE entries with distinct ids are appended and two
    notifications go out; the second entry's snapshots both hold
    "escalated". *)
Theorem followup_escalates_again
    (tid : Z) (params : gmap string json) (t : Ticket) (w : World) :
  tickets (db w) !! tid = Some t →
  ticket_id t = tid →
  status t ≠ "resolved" → status t ≠ "closed" →
  pending w = [] →
  ∃ w1 w2 e1 e2,
    check_ticket_followup tid params w = (Ok tt, w1)
    ∧ check_ticket_followup tid params w1 = (Ok tt, w2)
    ∧ history (db w2) = history (db w) ++ [e1; e2]
    ∧ action_type e1 = "ESCALATE" ∧ action_type e2 = "ESCALATE"
    ∧ id e1 ≠ id e2
    ∧ before_state e1 = Some {[ "status" := Some (status t) ]}
    ∧ before_state e2 = Some {[ "status" := Some "escalated" ]}
    ∧ after_state e2 = Some {[ "status" := Some "escalated" ]}
    ∧ length (outbox (db w2)) = S (S (length (outbox (db w)))).
Proof.
  intros Ht Hid Hr Hc Hp. subst tid.
  destruct (handle_escalate_clean t t followup_params w Hp Ht)
    as (w1 & Hrun1 & Hp1 & _ & Htk1 & Hh1 & _ & _ & Hout1).
  set (t1 := with_status "escalated" t) in *.
  assert (Ht1 : tickets (db w1) !! ticket_id t = Some t1).
  { rewrite Htk1. apply lookup_insert_eq. }
  destruct (handle_escalate_clean t1 t1 followup_params w1 Hp1 Ht1)
    as (w2 & Hrun2 & _ & _ & _ & Hh2 & _ & _ & Hout2).
  exists w1, w2, (escalate_entry (history (db w)) t followup_params),
    (escalate_entry (history (db w1)) t1 followup_params).
  split.
  { rewrite (check_ticket_followup_eq _ _ _ _ Ht).
    rewrite bool_decide_eq_false_2.
    - unfold try_except. by rewrite run_bind, Hrun1.
    - rewrite !elem_of_cons, elem_of_nil. tauto. }
  split.
  { rewrite (check_ticket_followup_eq _ _ _ _ Ht1).
    rewrite bool_decide_eq_false_2.
    - unfold try_except. by rewrite run_bind, Hrun2.
    - subst t1. simpl. rewrite !elem_of_cons, elem_of_nil.
      intros [?|[?|[]]]; discriminate. }
  split. { rewrite Hh2, Hh1, <- app_assoc. reflexivity. }
  split; [reflexivity|]. split; [reflexivity|].
  split.
  { simpl. rewrite Hh1. intros Heq.
    pose proof (fresh_id_fresh
      (history (db w) ++ [escalate_entry (history (db w)) t followup_params]))
      as Hfresh.
    rewrite <- Heq in Hfresh.
    rewrite find_action_created in Hfresh; [discriminate | reflexivity]. }
  split; [reflexivity|]. split; [reflexivity|]. split; [reflexivity|].
  rewrite Hout2, Hout1, !length_app. simpl. lia.
Qed.

Lemma followup_escalates_again_witness :
  ∃ w1 w2 e1 e2,
    check_ticket_followup 1 ∅ world_open = (Ok tt, w1)
    ∧ check_ticket_followup 1 ∅ w1 = (Ok tt, w2)
    ∧ history (db w2) = [e1; e2]
    ∧ before_state e2 = after_state e2.
Proof.
  destruct (followup_escalates_again 1 ∅ ticket_open world_open
              eq_refl eq_refl)
    as (w1 & w2 & e1 & e2 & Hr1 & Hr2 & Hh & _ & _ & _ & _ & Hb & Ha & _).
  - discriminate.
  - discriminate.
  - reflexivity.
  - exists w1, w2, e1, e2. split; [exact Hr1|]. split; [exact Hr2|].
    split; [exact Hh|]. by rewrite Hb, Ha.
Defined.

(** X9.  [handle_request_clarification] never writes an ActionHistory entry or
    a resolution row, whatever fails.  With no fault pending it returns
    true, stores the status "pending_clarification", logs one interaction
    and sends one clarification request. *)
Theorem request_clarification_leaves_no_entry
    (ticket orig : Ticket) (params : gmap string json) (w : World) :
  tickets (db w) !! ticket_id ticket = Some orig →
  ∃ r w', handle_request_clarification ticket params w = (r, w')
    ∧ history (db w') = history (db w)
    ∧ resolutions (db w') = resolutions (db w)
    ∧ (pending w = [] →
       r = Ok true
       ∧ tickets (db w')
         = <[ticket_id ticket := with_status "pending_clarification" ticket]>
             (tickets (db w))
       ∧ interactions (db w')
         = interactions (db w) ++ [clarification_interaction ticket params]
       ∧ outbox (db w')
         = outbox (db w)
           ++ [Notify "request_clarification_from_user" (user ticket)
                      (ticket_id ticket) params]).
Proof.
  intros Ho. unfold handle_request_clarification. cbv zeta. rewrite run_bind.
  destruct (Ticket_save_spec (with_status "pending_clarification" ticket)
              orig w Ho)
    as (r & w1 & -> & (Hc & Hu & Hi & Hh & Hres & Hout) & _ & _ & Htk & Hcl
        & _).
  destruct r as [[]|e].
  2: { eexists _, _. split; [reflexivity|]. split; [exact Hh|].
       split; [exact Hres|]. intros Hp. by destruct (Hcl Hp). }
  unfold TicketInteraction_create, call. rewrite run_bind, run_write.
  destruct (hd false (pending w1)) eqn:H1.
  { eexists _, _. split; [reflexivity|]. simpl. split; [exact Hh|].
    split; [exact Hres|]. intros Hp. destruct (Hcl Hp) as [_ Hp1].
    rewrite Hp1 in H1. discriminate. }
  rewrite run_bind, run_write. simpl.
  destruct (hd false (tail (pending w1))) eqn:H2.
  { eexists _, _. split; [reflexivity|]. simpl. split; [exact Hh|].
    split; [exact Hres|]. intros Hp. destruct (Hcl Hp) as [_ Hp1].
    rewrite Hp1 in H2. discriminate. }
  eexists _, _. split; [reflexivity|]. simpl. split; [exact Hh|].
  split; [exact Hres|]. intros Hp. rewrite Hp in Htk.
  split; [reflexivity|]. split; [exact (Htk eq_refl)|].
  split; [by rewrite Hi | by rewrite Hout].
Qed.

Lemma request_clarification_leaves_no_entry_witness :
  ∃ r w',
    handle_request_clarification ticket_open ∅ (world_open_with [false; true])
      = (r, w')
    ∧ history (db w') = []
    ∧ resolutions (db w') = ∅.
Proof.
  destruct (request_clarification_leaves_no_entry ticket_open ticket_open ∅
              (world_open_with [false; true]) eq_refl)
    as (r & w' & Hrun & Hh & Hres & _).
  exists r, w'. split; [exact Hrun|]. split; [exact Hh | exact Hres].
Defined.

(** X10.  [handle_schedule_followup] changes nothing of the database but the
    outgoing calls, under every fault plan: no ticket field, no entry, no
    interaction.  With no fault pending it returns true after scheduling
    [check_ticket_followup] (only when [followup_time] is given) and
    sending the solution. *)
Theorem schedule_followup_only_schedules
    (ticket : Ticket) (params : gmap string json) (w : World) :
  ∃ r w' o,
    handle_schedule_followup ticket params w = (r, w')
    ∧ db w' = set_outbox (λ _, o) (db w)
    ∧ (pending w = [] →
       r = Ok true ∧ o = outbox (db w) ++ followup_calls ticket params).
Proof.
  unfold handle_schedule_followup, followup_calls, call. cbv zeta.
  rewrite run_bind.
  assert (Hid : ∀ d, d = set_outbox (λ _, outbox d) d) by (by intros []).
  destruct (truthy (dict_get params "followup_time" JNull)).
  - rewrite run_write. destruct (hd false (pending w)) eqn:H1.
    { eexists _, _, _. split; [reflexivity|]. split; [apply Hid|].
      intros Hp. rewrite Hp in H1. discriminate. }
    rewrite run_bind, run_write. simpl.
    destruct (hd false (tail (pending w))) eqn:H2.
    { eexists _, _, _. split; [reflexivity|]. simpl. split; [reflexivity|].
      intros Hp. rewrite Hp in H2. discriminate. }
    eexists _, _, _. split; [reflexivity|]. simpl. split; [reflexivity|].
    intros _. split; [reflexivity|]. unfold set_outbox. simpl.
    rewrite <- app_assoc. reflexivity.
  - rewrite run_ret, run_bind, run_write.
    destruct (hd false (pending w)) eqn:H1.
    { eexists _, _, _. split; [reflexivity|]. split; [apply Hid|].
      intros Hp. rewrite Hp in H1. discriminate. }
    eexists _, _, _. split; [reflexivity|]. simpl. split; [reflexivity|].
    intros _. split; reflexivity.
Qed.

(** X11.  [handle_create_kb_article] returns true in every clean run, also when
    it has created nothing: unless the ticket is resolved and has an agent
    response the world is untouched.  Otherwise it writes the article
    titled after the issue type, and running it again changes nothing
    more.  It never writes a ticket or a history entry. *)
Theorem create_kb_article_needs_resolved
    (ticket : Ticket) (params : gmap string json) (w : World) :
  pending w = [] →
  ∃ w1,
    handle_create_kb_article ticket params w = (Ok true, w1)
    ∧ handle_create_kb_article ticket params w1 = (Ok true, w1)
    ∧ tickets (db w1) = tickets (db w)
    ∧ history (db w1) = history (db w)
    ∧ (status ticket ≠ "resolved"
       ∨ opt_dict_truthy (agent_response ticket) = false → w1 = w)
    ∧ (status ticket = "resolved" →
       opt_dict_truthy (agent_response ticket) = true →
       kb_articles (db w1)
       = <[kb_title ticket := kb_article_of ticket]> (kb_articles (db w))).
Proof.
  intros Hp. unfold handle_create_kb_article, sync_to_knowledge_base.
  destruct (String.eqb_spec (status ticket) "resolved") as [Hs|Hs]; simpl.
  2: { exists w. rewrite run_bind, run_ret.
       split; [reflexivity|]. split; [reflexivity|].
       split; [reflexivity|]. split; [reflexivity|].
       split; [reflexivity|]. intros Hs'. by destruct Hs. }
  destruct (opt_dict_truthy (agent_response ticket)) eqn:Hr.
  2: { exists w. rewrite run_bind, run_ret.
       split; [reflexivity|]. split; [reflexivity|].
       split; [reflexivity|]. split; [reflexivity|].
       split; [reflexivity|]. intros _ Hfalse. discriminate. }
  rewrite run_bind, run_write_clean by exact Hp.
  eexists. split; [reflexivity|].
  split.
  { rewrite run_bind, run_write_clean by reflexivity. simpl.
    unfold set_kb_articles. simpl. by rewrite insert_insert_eq. }
  simpl. split; [reflexivity|]. split; [reflexivity|].
  split; [intros [Hne | Hf]; [by destruct Hne | discriminate]|].
  intros _ _. reflexivity.
Qed.

Lemma create_kb_article_needs_resolved_witness :
  ∃ w1,
    handle_create_kb_article ticket_answered ∅ world_open = (Ok true, w1)
    ∧ handle_create_kb_article ticket_answered ∅ w1 = (Ok true, w1)
    ∧ kb_articles (db w1)
      = {[ "Resolved: software (high)" := kb_article_of ticket_answered ]}.
Proof.
  destruct (create_kb_article_needs_resolved ticket_answered ∅ world_open
              eq_refl)
    as (w1 & Hr1 & Hr2 & _ & _ & _ & Hkb).
  exists w1. split; [exact Hr1|]. split; [exact Hr2|].
  rewrite (Hkb eq_refl eq_refl). reflexivity.
Defined.

(** X12.  [Ticket.save] writes to the knowledge base and the solutions only
    when the save is a transition into "resolved" of a ticket with an
    agent response; on any other save both are untouched, under every
    fault plan.  On a clean transition the row is stored, the article is
    written, and a solution for the ticket exists afterwards when the
    response has steps, while the solutions are as before when it has
    none; steps count as given when, joined by newlines if they are a
    list, they are not empty. *)
Theorem ticket_save_syncs_on_transition_only
    (t orig : Ticket) (w : World) :
  tickets (db w) !! ticket_id t = Some orig →
  ∃ r w', Ticket_save t w = (r, w')
    ∧ (resolving_save t orig = false →
       kb_articles (db w') = kb_articles (db w)
       ∧ solutions (db w') = solutions (db w))
    ∧ (pending w = [] →
       r = Ok tt
       ∧ tickets (db w') = <[ticket_id t := t]> (tickets (db w))
       ∧ (resolving_save t orig = true →
          kb_articles (db w')
          = <[kb_title t := kb_article_of t]> (kb_articles (db w))
          ∧ (has_steps (agent_response t) = true →
             ticket_id t ∈ solutions (db w'))
          ∧ (has_steps (agent_response t) = false →
             solutions (db w') = solutions (db w)))).
Proof.
  intros Ho. unfold Ticket_save, resolving_save.
  rewrite run_bind, (run_Ticket_get _ _ _ Ho). rewrite run_bind, run_write.
  destruct (hd false (pending w)) eqn:Hf.
  { eexists _, _. split; [reflexivity|]. simpl. split; [done|].
    intros Hp. rewrite Hp in Hf. discriminate. }
  destruct (String.eqb (status t) "resolved" && opt_dict_truthy (agent_response t)
            && negb (String.eqb (status orig) "resolved")) eqn:Hc.
  2: { rewrite run_ret. eexists _, _. split; [reflexivity|]. simpl.
       split; [done|]. intros Hp. split; [reflexivity|].
       split; [reflexivity|]. discriminate. }
  apply andb_true_iff in Hc as [Hc _].
  unfold sync_to_knowledge_base. rewrite Hc.
  rewrite run_bind, run_write. simpl.
  destruct (hd false (tail (pending w))) eqn:H2.
  { eexists _, _. split; [reflexivity|]. simpl. split; [discriminate|].
    intros Hp. rewrite Hp in H2. discriminate. }
  destruct (has_steps (agent_response t)) eqn:Hs.
  2: { rewrite run_ret. eexists _, _. split; [reflexivity|]. simpl.
       split; [discriminate|]. intros Hp. split; [reflexivity|].
       split; [reflexivity|]. intros _. split; [reflexivity|].
       split; [discriminate | reflexivity]. }
  unfold Solution_get_or_create. rewrite run_bind, run_get_db. simpl.
  destruct (bool_decide (ticket_id t ∈ solutions (db w))) eqn:Hin.
  { rewrite run_ret. eexists _, _. split; [reflexivity|]. simpl.
    split; [discriminate|]. intros Hp. split; [reflexivity|].
    split; [reflexivity|]. intros _. split; [reflexivity|].
    split; [intros _; by apply bool_decide_eq_true in Hin | discriminate]. }
  rewrite run_write. simpl.
  destruct (hd false (tail (tail (pending w)))) eqn:H3.
  { eexists _, _. split; [reflexivity|]. simpl. split; [discriminate|].
    intros Hp. rewrite Hp in H3. discriminate. }
  eexists _, _. split; [reflexivity|]. simpl.
  split; [discriminate|]. intros Hp. split; [reflexivity|].
  split; [reflexivity|]. intros _. split; [reflexivity|].
  split; [intros _; set_solver | discriminate].
Qed.

Lemma ticket_save_syncs_on_transition_only_witness :
  (∃ r w', Ticket_save ticket_answered world_open = (r, w')
     ∧ is_Some (kb_articles (db w') !! "Resolved: software (high)")
     ∧ 1 ∈ solutions (db w'))
  ∧ (∃ r w',
       Ticket_save (with_status "escalated" ticket_answered) world_open
         = (r, w')
       ∧ kb_articles (db w') = ∅ ∧ solutions (db w') = ∅)
  ∧ (∃ r w', Ticket_save ticket_blank_steps world_open = (r, w')
       ∧ is_Some (kb_articles (db w') !! "Resolved: software (high)")
       ∧ solutions (db w') = ∅).
Proof.
  split; [|split].
  - destruct (ticket_save_syncs_on_transition_only ticket_answered
                ticket_open world_open eq_refl)
      as (r & w' & Hrun & _ & Hclean).
    destruct (Hclean eq_refl) as (_ & _ & Hsync).
    destruct (Hsync eq_refl) as (Hkb & Hsol & _).
    exists r, w'. split; [exact Hrun|]. split.
    + rewrite Hkb. eexists. reflexivity.
    + apply Hsol. reflexivity.
  - destruct (ticket_save_syncs_on_transition_only
                (with_status "escalated" ticket_answered) ticket_open
                world_open eq_refl)
      as (r & w' & Hrun & Hkeep & _).
    destruct (Hkeep eq_refl) as [Hkb Hsol].
    exists r, w'. split; [exact Hrun|]. split; [exact Hkb | exact Hsol].
  - destruct (ticket_save_syncs_on_transition_only ticket_blank_steps
                ticket_open world_open eq_refl)
      as (r & w' & Hrun & _ & Hclean).
    destruct (Hclean eq_refl) as (_ & _ & Hsync).
    destruct (Hsync eq_refl) as (Hkb & _ & Hnone).
    exists r, w'. split; [exact Hrun|]. split.
    + rewrite Hkb. eexists. reflexivity.
    + apply Hnone. reflexivity.
Defined.

(** X13.  [schedule_resolution_followup] stamps the follow-up once.  With no
    fault pending the first run leaves a resolution row for the ticket,
    stamped with the current time unless it was stamped already (then
    nothing changes); a second run changes nothing.  Tickets are never
    written. *)
Theorem resolution_followup_sent_once
    (tid : Z) (t : Ticket) (w : World) :
  tickets (db w) !! tid = Some t →
  ticket_id t = tid →
  pending w = [] →
  (∀ r0, resolutions (db w) !! tid = Some r0 → tr_ticket r0 = tid) →
  ∃ w1 r1,
    schedule_resolution_followup tid w = (Ok tt, w1)
    ∧ schedule_resolution_followup tid w1 = (Ok tt, w1)
    ∧ resolutions (db w1) !! tid = Some r1
    ∧ tickets (db w1) = tickets (db w)
    ∧ (∀ r0 s, resolutions (db w) !! tid = Some r0 →
               followup_sent_at r0 = Some s → w1 = w)
    ∧ ((∀ r0, resolutions (db w) !! tid = Some r0 →
              followup_sent_at r0 = None) →
       followup_sent_at r1 = Some (clock w)).
Proof.
  intros Ht Hid Hp Hkey. subst tid.
  unfold schedule_resolution_followup at 1. unfold try_except.
  rewrite run_bind, (run_Ticket_get _ _ _ Ht). rewrite run_bind.
  unfold TicketResolution_get_or_create. rewrite run_bind, run_get_db.
  assert (Hsecond : ∀ w1 r1 s,
    tickets (db w1) !! ticket_id t = Some t →
    resolutions (db w1) !! ticket_id t = Some r1 →
    followup_sent_at r1 = Some s →
    schedule_resolution_followup (ticket_id t) w1 = (Ok tt, w1)).
  { intros w1 r1 s Ht1 Hr1 Hs1. unfold schedule_resolution_followup, try_except.
    rewrite run_bind, (run_Ticket_get _ _ _ Ht1). rewrite run_bind.
    unfold TicketResolution_get_or_create. rewrite run_bind, run_get_db.
    rewrite Hr1, run_ret. simpl. rewrite Hs1.
    by rewrite bool_decide_eq_true_2 by eauto. }
  destruct (resolutions (db w) !! ticket_id t) as [r0|] eqn:Hr0.
  - rewrite run_ret. simpl.
    destruct (followup_sent_at r0) as [s|] eqn:Hs0.
    + rewrite bool_decide_eq_true_2 by eauto. rewrite run_ret.
      exists w, r0. split; [reflexivity|].
      split; [by eapply Hsecond|]. split; [exact Hr0|].
      split; [reflexivity|]. split; [reflexivity|].
      intros Hnone. specialize (Hnone r0 eq_refl). congruence.
    + rewrite bool_decide_eq_false_2 by (intros [? ?]; discriminate).
      rewrite run_bind, run_now. unfold TicketResolution_save.
      rewrite run_write_clean by exact Hp.
      eexists _, (with_followup_sent_at (clock w) r0).
      split; [reflexivity|].
      assert (Hrow : resolutions
                (set_resolutions
                   (λ m, <[tr_ticket (with_followup_sent_at (clock w) r0)
                           := with_followup_sent_at (clock w) r0]> m) (db w))
                !! ticket_id t = Some (with_followup_sent_at (clock w) r0)).
      { simpl. rewrite (Hkey r0 eq_refl). apply lookup_insert_eq. }
      split; [eapply Hsecond; [exact Ht | exact Hrow | reflexivity]|].
      split; [exact Hrow|]. split; [reflexivity|].
      split; [intros r0' s' [= <-]; congruence|].
      intros _. reflexivity.
  - rewrite run_bind, run_write_clean by exact Hp. rewrite run_ret. simpl.
    eexists _, _. split; [reflexivity|].
    split.
    { eapply Hsecond; simpl; [exact Ht | apply lookup_insert_eq | reflexivity]. }
    split; [simpl; apply lookup_insert_eq|]. split; [reflexivity|].
    split; [intros r0' s' Habs; discriminate|].
    intros _. reflexivity.
Qed.

Lemma resolution_followup_sent_once_witness :
  ∃ w1 r1,
    schedule_resolution_followup 1 (world1 [entry1] []) = (Ok tt, w1)
    ∧ schedule_resolution_followup 1 w1 = (Ok tt, w1)
    ∧ resolutions (db w1) !! 1 = Some r1
    ∧ followup_sent_at r1 = Some 1000.
Proof.
  destruct (resolution_followup_sent_once 1 ticket1 (world1 [entry1] [])
              eq_refl eq_refl eq_refl)
    as (w1 & r1 & Hr1 & Hr2 & Hrow & _ & _ & Hsent).
  - intros r0 Hr0. discriminate.
  - exists w1, r1. split; [exact Hr1|]. split; [exact Hr2|].
    split; [exact Hrow|]. apply Hsent. intros r0 Hr0. discriminate.
Defined.

(** ** Missing tickets, unknown actions, partial effects *)

(** X14.  A ticket id that is not on record never raises: both follow-up tasks
    return normally, the dispatcher returns false, the feedback endpoint
    answers 404, and none of them writes or consumes a fault. *)
Theorem missing_ticket_is_swallowed
    (value : AgentAction → string) (tid : Z) (action : string)
    (params : gmap string json) (data : Feedback) (w : World) :
  tickets (db w) !! tid = None →
  check_ticket_followup tid params w = (Ok tt, w)
  ∧ schedule_resolution_followup tid w = (Ok tt, w)
  ∧ execute_autonomous_action value tid action params w = (Ok false, w)
  ∧ submit_resolution_feedback data tid w
    = (Ok (mkResponse 404 [("error", JStr "Ticket not found")]), w).
Proof.
  intros Hn.
  assert (Hget : Ticket_get tid w = (Raise (DoesNotExist "Ticket"), w)).
  { unfold Ticket_get. rewrite run_bind, run_get_db. by rewrite Hn. }
  split; [|split; [|split]].
  - unfold check_ticket_followup, try_except. by rewrite run_bind, Hget.
  - unfold schedule_resolution_followup, try_except. by rewrite run_bind, Hget.
  - unfold execute_autonomous_action, try_except. by rewrite run_bind, Hget.
  - unfold submit_resolution_feedback, try_except. by rewrite run_bind, Hget.
Qed.

Lemma missing_ticket_is_swallowed_witness :
  check_ticket_followup 7 ∅ world_open = (Ok tt, world_open)
  ∧ execute_autonomous_action member_name 7 "AUTO_RESOLVE" ∅ world_open
    = (Ok false, world_open).
Proof.
  destruct (missing_ticket_is_swallowed member_name 7 "AUTO_RESOLVE" ∅
              feedback_happy world_open eq_refl)
    as (Hcheck & _ & Hexec & _).
  split; [exact Hcheck | exact Hexec].
Defined.

(** X15.  An action string that is the value of no member of the enum makes
    the dispatcher return false without any effect, whether or not the
    ticket exists. *)
Theorem unknown_action_is_refused
    (value : AgentAction → string) (tid : Z) (action : string)
    (params : gmap string json) (w : World) :
  (∀ a, action ≠ value a) →
  execute_autonomous_action value tid action params w = (Ok false, w).
Proof.
  intros Hne. unfold execute_autonomous_action, try_except.
  rewrite run_bind. unfold Ticket_get. rewrite run_bind, run_get_db.
  destruct (tickets (db w) !! tid); [|reflexivity].
  rewrite run_ret.
  assert (Hf : ∀ a, String.eqb action (value a) = false).
  { intros a. apply String.eqb_neq. apply Hne. }
  by rewrite !Hf.
Qed.

Lemma unknown_action_is_refused_witness :
  execute_autonomous_action member_name 1 "DELETE_TICKET" ∅ world_open
  = (Ok false, world_open).
Proof.
  apply (unknown_action_is_refused member_name 1 "DELETE_TICKET" ∅
           world_open).
  intros a. destruct a; discriminate.
Defined.

(** X16.  The dispatcher's false does not mean that nothing happened.  When
    the ticket save of an automatic resolution (of a ticket without
    assignee) succeeds and the creation of the history entry fails,
    [execute_autonomous_action] returns false with the ticket stored as
    resolved, no entry to roll it back by, no interaction and no
    notification. *)
Theorem auto_resolve_partial_on_history_failure
    (value : AgentAction → string) (tid : Z) (t : Ticket)
    (params : gmap string json) (fs : list bool) (w : World) :
  tickets (db w) !! tid = Some t →
  ticket_id t = tid →
  assigned_to t = None →
  agent_response t = None →
  pending w = false :: true :: fs →
  ∃ w',
    execute_autonomous_action value tid (value AUTO_RESOLVE) params w
      = (Ok false, w')
    ∧ tickets (db w') = <[tid := with_status "resolved" t]> (tickets (db w))
    ∧ history (db w') = history (db w)
    ∧ interactions (db w') = interactions (db w)
    ∧ outbox (db w') = outbox (db w).
Proof.
  intros Ht Hid Ha Hr Hp. subst tid.
  unfold execute_autonomous_action, try_except.
  rewrite run_bind, (run_Ticket_get _ _ _ Ht). rewrite String.eqb_refl.
  unfold handle_auto_resolve.
  rewrite run_bind, (run_status_and_assignee _ _ Ha). cbv zeta.
  rewrite run_bind.
  unfold Ticket_save. rewrite run_bind.
  assert (Ht' : tickets (db w) !! ticket_id (with_status "resolved" t) = Some t)
    by exact Ht.
  rewrite (run_Ticket_get _ _ _ Ht'). rewrite run_bind, run_write, Hp. simpl.
  rewrite Hr. simpl.
  rewrite run_bind,
    (run_status_and_assignee (with_status "resolved" t) _ Ha).
  unfold ActionHistory_create. rewrite run_bind, run_write. simpl.
  eexists. split; [reflexivity|]. simpl.
  split; [reflexivity|]. split; [reflexivity|]. split; reflexivity.
Qed.

Lemma auto_resolve_partial_on_history_failure_witness :
  ∃ w',
    execute_autonomous_action member_name 1 "AUTO_RESOLVE" ∅
      (world_open_with [false; true]) = (Ok false, w')
    ∧ stored_status 1 w' = Some "resolved"
    ∧ history (db w') = [].
Proof.
  destruct (auto_resolve_partial_on_history_failure member_name 1 ticket_open
              ∅ [] (world_open_with [false; true])
              eq_refl eq_refl eq_refl eq_refl eq_refl)
    as (w' & Hrun & Htk & Hh & _).
  exists w'. split; [exact Hrun|]. split; [|exact Hh].
  unfold stored_status. rewrite Htk. reflexivity.
Defined.

(** X23.  The executors that snapshot the assignee cannot run on a ticket
    that has one.  [handle_assign_to_team] raises before its first write,
    as [handle_auto_resolve] does, and through the dispatch task both
    actions come back as false with the world exactly as it was, whatever
    the fault plan: an assigned ticket is never resolved or re-assigned
    by the agent, and no entry records the attempt. *)
Theorem assigned_ticket_stops_executors
    (value : AgentAction → string) (tid : Z) (t : Ticket) (u : uid)
    (params : gmap string json) (w : World) :
  (∀ x y, value x = value y → x = y) →
  tickets (db w) !! tid = Some t →
  assigned_to t = Some u →
  handle_assign_to_team t params w
  = (Raise (AttributeError "User" "user_id"), w)
  ∧ execute_autonomous_action value tid (value AUTO_RESOLVE) params w
    = (Ok false, w)
  ∧ execute_autonomous_action value tid (value ASSIGN_TO_TEAM) params w
    = (Ok false, w).
Proof.
  intros Hinj Ht Ha.
  assert (Hassign : handle_assign_to_team t params w
                    = (Raise (AttributeError "User" "user_id"), w)).
  { unfold handle_assign_to_team.
    by rewrite run_bind, (run_status_and_assignee_assigned _ _ _ Ha). }
  assert (Hauto : handle_auto_resolve t params w
                  = (Raise (AttributeError "User" "user_id"), w)).
  { unfold handle_auto_resolve.
    by rewrite run_bind, (run_status_and_assignee_assigned _ _ _ Ha). }
  split; [exact Hassign|]. split.
  - rewrite (dispatch_reaches_handler value AUTO_RESOLVE tid params Hinj).
    unfold try_except. rewrite run_bind, (run_Ticket_get _ _ _ Ht). simpl.
    by rewrite Hauto.
  - rewrite (dispatch_reaches_handler value ASSIGN_TO_TEAM tid params Hinj).
    unfold try_except. rewrite run_bind, (run_Ticket_get _ _ _ Ht). simpl.
    by rewrite Hassign.
Qed.

Lemma assigned_ticket_stops_executors_witness :
  execute_autonomous_action member_name 1 "AUTO_RESOLVE" steps_params
    world_assigned = (Ok false, world_assigned)
  ∧ execute_autonomous_action member_name 1 "ASSIGN_TO_TEAM" ∅
      world_assigned = (Ok false, world_assigned).
Proof.
  assert (Hinj : ∀ x y, member_name x = member_name y → x = y).
  { intros x y. destruct x, y; (reflexivity || discriminate). }
  split.
  - exact (proj1 (proj2 (assigned_ticket_stops_executors member_name 1
                           ticket_assigned "admin" steps_params
                           world_assigned Hinj eq_refl eq_refl))).
  - exact (proj2 (proj2 (assigned_ticket_stops_executors member_name 1
                           ticket_assigned "admin" ∅
                           world_assigned Hinj eq_refl eq_refl))).
Defined.

(** ** Feedback, repeated and interrupted *)

Lemma submit_feedback_clean (data : Feedback) (tid : Z) (t : Ticket)
    (w : World) :
  tickets (db w) !! tid = Some t →
  ticket_id t = tid →
  pending w = [] →
  (∀ r0, resolutions (db w) !! tid = Some r0 → tr_ticket r0 = tid) →
  ∃ resp w',
    submit_resolution_feedback data tid w = (Ok resp, w')
    ∧ http_status resp = 200
    ∧ pending w' = [] ∧ clock w' = clock w
    ∧ resolutions (db w')
      = <[tid := feedback_result data (clock w)
                   (feedback_row tid (resolutions (db w)))]>
          (resolutions (db w))
    ∧ tickets (db w')
      = (if bool_decide (fb_resolution_confirmed data = Some false)
         then <[tid := with_status "escalated" t]> (tickets (db w))
         else tickets (db w))
    ∧ history (db w') = history (db w).
Proof.
  intros Ht Hid Hp Hkey.
  assert (Hrow : tr_ticket (feedback_row tid (resolutions (db w))) = tid).
  { unfold feedback_row. destruct (resolutions (db w) !! tid) eqn:E; eauto. }
  destruct (run_get_or_create_clean t (JStr "MANUAL") w Hp)
    as (w1 & Hgc & Hp1 & Hc1 & Htk1 & Hres1).
  assert (Hh1 : history (db w1) = history (db w)).
  { revert Hgc. unfold TicketResolution_get_or_create.
    rewrite run_bind, run_get_db.
    destruct (resolutions (db w) !! ticket_id t).
    - rewrite run_ret. by intros [= <-].
    - rewrite run_bind, run_write_clean by exact Hp. rewrite run_ret.
      by intros [= <-]. }
  rewrite Hid in Hgc, Hres1.
  assert (Hdef : default (mkResolution tid (JStr "MANUAL") None "" None None
                            None false None "") (resolutions (db w) !! tid)
                 = feedback_row tid (resolutions (db w))).
  { unfold feedback_row. by destruct (resolutions (db w) !! tid). }
  rewrite Hdef in Hgc.
  unfold submit_resolution_feedback, try_except, feedback_result.
  rewrite run_bind, (run_Ticket_get _ _ _ Ht).
  rewrite run_bind, Hgc. rewrite run_bind, run_now. cbv zeta.
  rewrite run_bind, confirmed_record_feedback.
  destruct (bool_decide (fb_resolution_confirmed data = Some false)) eqn:Hb.
  - rewrite run_bind, run_now, run_bind.
    assert (Ho : tickets (db w1) !! ticket_id (with_status "escalated" t)
                 = Some t) by (simpl; by rewrite Htk1, Hid).
    destruct (Ticket_save_spec (with_status "escalated" t) t w1 Ho)
      as (r & w2 & -> & (Hc & Hu & Hi & Hh & Hres & Hout) & _ & _ & Htk & Hcl
          & _).
    destruct (Hcl Hp1) as [-> Hp2].
    rewrite Hp1 in Htk. specialize (Htk eq_refl). simpl in Htk.
    rewrite run_ret. unfold TicketResolution_save.
    rewrite run_bind, run_write_clean by exact Hp2. rewrite run_ret.
    eexists _, _. split; [reflexivity|]. simpl.
    rewrite Hrow, Hres, Hres1, Htk, Htk1, Hid, Hc, Hc1, Hh, Hh1.
    split_and!; reflexivity.
  - rewrite run_ret. unfold TicketResolution_save.
    rewrite run_bind, run_write_clean by exact Hp1. rewrite run_ret.
    eexists _, _. split; [reflexivity|]. simpl.
    rewrite Hrow, Hres1, Htk1, Hc1, Hh1. split_and!; reflexivity.
Qed.

(** X17.  Feedback is overwritten, not accumulated.  After two clean
    submissions the row holds the confirmation, the score and the text of
    the second (an absent text becomes the empty string); the recorded
    action and follow-up stamp are kept; and [reopened] can only be
    raised: it is the first submission's value or-ed with the second
    being negative. *)
Theorem feedback_last_submission_wins
    (d1 d2 : Feedback) (tid : Z) (t : Ticket) (w : World) :
  tickets (db w) !! tid = Some t →
  ticket_id t = tid →
  pending w = [] →
  (∀ r0, resolutions (db w) !! tid = Some r0 → tr_ticket r0 = tid) →
  ∃ resp1 w1 r1 resp2 w2 r2,
    submit_resolution_feedback d1 tid w = (Ok resp1, w1)
    ∧ resolutions (db w1) !! tid = Some r1
    ∧ submit_resolution_feedback d2 tid w1 = (Ok resp2, w2)
    ∧ resolutions (db w2) !! tid = Some r2
    ∧ resolution_confirmed r2 = fb_resolution_confirmed d2
    ∧ satisfaction_score r2 = fb_satisfaction_score d2
    ∧ user_feedback_text r2 = default "" (fb_feedback_text d2)
    ∧ autonomous_action r2 = autonomous_action r1
    ∧ followup_sent_at r2 = followup_sent_at r1
    ∧ reopened r2
      = reopened r1 || bool_decide (fb_resolution_confirmed d2 = Some false)
    ∧ (reopened r1 = true → was_successful r2 = Some false).
Proof.
  intros Ht Hid Hp Hkey.
  destruct (submit_feedback_clean d1 tid t w Ht Hid Hp Hkey)
    as (resp1 & w1 & Hrun1 & _ & Hp1 & Hc1 & Hres1 & Htk1 & _).
  set (r1 := feedback_result d1 (clock w)
               (feedback_row tid (resolutions (db w)))) in *.
  assert (Hr1 : resolutions (db w1) !! tid = Some r1).
  { rewrite Hres1. apply lookup_insert_eq. }
  assert (Hk1 : tr_ticket r1 = tid).
  { unfold r1, feedback_result, feedback_row.
    destruct (bool_decide _); simpl;
      destruct (resolutions (db w) !! tid) eqn:E; eauto. }
  assert (Ht1 : ∃ t1, tickets (db w1) !! tid = Some t1 ∧ ticket_id t1 = tid).
  { rewrite Htk1. destruct (bool_decide _).
    - eexists. rewrite lookup_insert_eq. split; [reflexivity | exact Hid].
    - eauto. }
  destruct Ht1 as (t1 & Ht1 & Hid1).
  assert (Hkey1 : ∀ r0, resolutions (db w1) !! tid = Some r0 →
                        tr_ticket r0 = tid).
  { intros r0. rewrite Hr1. by intros [= <-]. }
  destruct (submit_feedback_clean d2 tid t1 w1 Ht1 Hid1 Hp1 Hkey1)
    as (resp2 & w2 & Hrun2 & _ & _ & _ & Hres2 & _).
  assert (Hrow : feedback_row tid (resolutions (db w1)) = r1).
  { unfold feedback_row. by rewrite Hr1. }
  rewrite Hrow in Hres2.
  exists resp1, w1, r1, resp2, w2, (feedback_result d2 (clock w1) r1).
  split; [exact Hrun1|]. split; [exact Hr1|]. split; [exact Hrun2|].
  split; [rewrite Hres2; apply lookup_insert_eq|].
  unfold feedback_result at 1 2 3 4 5 6 7.
  destruct (bool_decide (fb_resolution_confirmed d2 = Some false)) eqn:Hb;
    simpl.
  - split_and!; try reflexivity. by rewrite orb_true_r.
  - split_and!; try reflexivity.
    + by rewrite orb_false_r.
    + intros Hre. unfold was_successful. simpl. by rewrite Hre.
Qed.

Lemma feedback_last_submission_wins_witness :
  ∃ resp1 w1 resp2 w2 r2,
    submit_resolution_feedback feedback_happy 1 (world1 [entry1] [])
      = (Ok resp1, w1)
    ∧ submit_resolution_feedback feedback_still_broken 1 w1 = (Ok resp2, w2)
    ∧ resolutions (db w2) !! 1 = Some r2
    ∧ resolution_confirmed r2 = Some false
    ∧ satisfaction_score r2 = None.
Proof.
  destruct (feedback_last_submission_wins feedback_happy
              feedback_still_broken 1 ticket1 (world1 [entry1] [])
              eq_refl eq_refl eq_refl)
    as (resp1 & w1 & r1 & resp2 & w2 & r2 & Hr1 & _ & Hr2 & Hrow & Hc & Hs
        & _).
  - intros r0 Hr0. discriminate.
  - exists resp1, w1, resp2, w2, r2. split; [exact Hr1|].
    split; [exact Hr2|]. split; [exact Hrow|].
    split; [exact Hc | exact Hs].
Defined.



(** X19.  A negative submission whose ticket save succeeds and whose row save
    fails is answered with 500, yet the ticket is stored as escalated
    while the resolution row says nothing of the feedback. *)
Theorem feedback_not_atomic
    (data : Feedback) (tid : Z) (t : Ticket) (r0 : TicketResolution)
    (fs : list bool) (w : World) :
  tickets (db w) !! tid = Some t →
  ticket_id t = tid →
  resolutions (db w) !! tid = Some r0 →
  fb_resolution_confirmed data = Some false →
  pending w = false :: true :: fs →
  ∃ resp w',
    submit_resolution_feedback data tid w = (Ok resp, w')
    ∧ http_status resp = 500
    ∧ tickets (db w') = <[tid := with_status "escalated" t]> (tickets (db w))
    ∧ resolutions (db w') = resolutions (db w).
Proof.
  intros Ht Hid Hr Hconf Hp. subst tid.
  unfold submit_resolution_feedback, try_except.
  rewrite run_bind, (run_Ticket_get _ _ _ Ht). rewrite run_bind.
  unfold TicketResolution_get_or_create. rewrite run_bind, run_get_db.
  rewrite Hr, run_ret. rewrite run_bind, run_now. cbv zeta.
  rewrite run_bind, confirmed_record_feedback, Hconf.
  rewrite bool_decide_eq_true_2 by reflexivity.
  rewrite run_bind, run_now, run_bind.
  unfold Ticket_save. rewrite run_bind.
  assert (Ht' : tickets (db w) !! ticket_id (with_status "escalated" t) = Some t)
    by exact Ht.
  rewrite (run_Ticket_get _ _ _ Ht'). rewrite run_bind, run_write, Hp.
  simpl.
  eexists _, _. split; [reflexivity|]. simpl. split_and!; reflexivity.
Qed.

Lemma feedback_not_atomic_witness :
  ∃ resp w',
    submit_resolution_feedback feedback_still_broken 1 world_tracked
      = (Ok resp, w')
    ∧ http_status resp = 500
    ∧ stored_status 1 w' = Some "escalated"
    ∧ resolutions (db w') = resolutions (db world_tracked).
Proof.
  destruct (feedback_not_atomic feedback_still_broken 1 ticket1
              (mkResolution 1 (JStr "AUTO_RESOLVE") None "" None (Some 900)
                            None false None "")
              [] world_tracked eq_refl eq_refl eq_refl eq_refl eq_refl)
    as (resp & w' & Hrun & Hcode & Htk & Hres).
  exists resp, w'. split; [exact Hrun|]. split; [exact Hcode|].
  split; [|exact Hres]. unfold stored_status. rewrite Htk. reflexivity.
Defined.

(** ** Manual status changes *)

(** X20.  [update_ticket_status] on a stored ticket never writes an entry or
    sends anything.  An absent or empty status is answered with 400 and
    no effect.  Any other string is accepted as it is: in a clean run the
    ticket is stored with that status, one "user_message" interaction
    quotes it, and the answer is 200. *)
Theorem update_ticket_status_behaviour
    (status_val : option string) (tid : Z) (t : Ticket) (w : World) :
  tickets (db w) !! tid = Some t →
  ticket_id t = tid →
  ∃ r w', update_ticket_status status_val tid w = (r, w')
    ∧ history (db w') = history (db w)
    ∧ outbox (db w') = outbox (db w)
    ∧ (status_val = None ∨ status_val = Some "" →
       r = Ok (mkResponse 400 [("error", JStr "status is required.")])
       ∧ w' = w)
    ∧ (∀ s, status_val = Some s → s ≠ "" → pending w = [] →
       r = Ok (mkResponse 200
                 [("message", JStr ("Ticket status updated to " +:+ s +:+ "."))])
       ∧ tickets (db w') = <[tid := with_status s t]> (tickets (db w))
       ∧ interactions (db w')
         = interactions (db w)
           ++ [mkInteraction tid (user t) "user_message"
                 [Lit "Status updated to "; Val (JStr s); Lit "."]]).
Proof.
  intros Ht Hid. subst tid. unfold update_ticket_status, get_ticket_or_404.
  rewrite run_bind, (run_Ticket_get _ _ _ Ht).
  destruct status_val as [s|]; simpl.
  2: { eexists _, _. split; [reflexivity|]. split; [reflexivity|].
       split; [reflexivity|]. split; [done|]. intros s. discriminate. }
  destruct (String.eqb_spec s "") as [->|Hs]; simpl.
  { eexists _, _. split; [reflexivity|]. split; [reflexivity|].
    split; [reflexivity|]. split; [done|]. intros s [= <-]. done. }
  rewrite run_bind.
  assert (Ho : tickets (db w) !! ticket_id (with_status s t) = Some t)
    by exact Ht.
  destruct (Ticket_save_spec (with_status s t) t w Ho)
    as (r & w1 & -> & (Hc & Hu & Hi & Hh & Hres & Hout) & _ & _ & Htk & Hcl
        & _).
  destruct r as [[]|e].
  2: { eexists _, _. split; [reflexivity|]. split; [exact Hh|].
       split; [exact Hout|]. split; [intros [?|[= ->]]; done|].
       intros s' _ _ Hp. by destruct (Hcl Hp). }
  unfold TicketInteraction_create. rewrite run_bind, run_write.
  destruct (hd false (pending w1)) eqn:H1.
  { eexists _, _. split; [reflexivity|]. simpl. split; [exact Hh|].
    split; [exact Hout|]. split; [intros [?|[= ->]]; done|].
    intros s' _ _ Hp. destruct (Hcl Hp) as [_ Hp1].
    rewrite Hp1 in H1. discriminate. }
  rewrite run_ret.
  eexists _, _. split; [reflexivity|]. simpl. split; [exact Hh|].
  split; [exact Hout|]. split; [intros [?|[= ->]]; done|].
  intros s' [= <-] _ Hp. rewrite Hp in Htk.
  split; [reflexivity|]. split; [exact (Htk eq_refl)|]. by rewrite Hi.
Qed.

Lemma update_ticket_status_behaviour_witness :
  ∃ r w',
    update_ticket_status (Some "closed") 1 world_open = (r, w')
    ∧ history (db w') = []
    ∧ stored_status 1 w' = Some "closed".
Proof.
  destruct (update_ticket_status_behaviour (Some "closed") 1 ticket_open
              world_open eq_refl eq_refl)
    as (r & w' & Hrun & Hh & _ & _ & Hok).
  destruct (Hok "closed" eq_refl) as (_ & Htk & _); [discriminate | reflexivity |].
  exists r, w'. split; [exact Hrun|]. split; [exact Hh|].
  unfold stored_status. rewrite Htk. reflexivity.
Defined.

(** X21.  [escalate_ticket] stores the status "escalated" and logs one
    "user_message" interaction in a clean run, but unlike the agent's
    escalation it records no ActionHistory entry (so there is nothing to
    roll back) and notifies nobody, under every fault plan. *)
Theorem manual_escalation_is_not_recorded
    (tid : Z) (t : Ticket) (w : World) :
  tickets (db w) !! tid = Some t →
  ticket_id t = tid →
  ∃ r w', escalate_ticket tid w = (r, w')
    ∧ history (db w') = history (db w)
    ∧ outbox (db w') = outbox (db w)
    ∧ (pending w = [] →
       r = Ok (mkResponse 200 [("message", JStr "Ticket escalated.")])
       ∧ tickets (db w') = <[tid := with_status "escalated" t]> (tickets (db w))
       ∧ interactions (db w')
         = interactions (db w)
           ++ [mkInteraction tid (user t) "user_message"
                 [Lit "Ticket escalated by user."]]).
Proof.
  intros Ht Hid. subst tid. unfold escalate_ticket, get_ticket_or_404.
  rewrite run_bind, (run_Ticket_get _ _ _ Ht). cbv zeta. rewrite run_bind.
  assert (Ho : tickets (db w) !! ticket_id (with_status "escalated" t) = Some t)
    by exact Ht.
  destruct (Ticket_save_spec (with_status "escalated" t) t w Ho)
    as (r & w1 & -> & (Hc & Hu & Hi & Hh & Hres & Hout) & _ & _ & Htk & Hcl
        & _).
  destruct r as [[]|e].
  2: { eexists _, _. split; [reflexivity|]. split; [exact Hh|].
       split; [exact Hout|]. intros Hp. by destruct (Hcl Hp). }
  unfold TicketInteraction_create. rewrite run_bind, run_write.
  destruct (hd false (pending w1)) eqn:H1.
  { eexists _, _. split; [reflexivity|]. simpl. split; [exact Hh|].
    split; [exact Hout|]. intros Hp. destruct (Hcl Hp) as [_ Hp1].
    rewrite Hp1 in H1. discriminate. }
  rewrite run_ret.
  eexists _, _. split; [reflexivity|]. simpl. split; [exact Hh|].
  split; [exact Hout|]. intros Hp. rewrite Hp in Htk.
  split; [reflexivity|]. split; [exact (Htk eq_refl)|]. by rewrite Hi.
Qed.

Lemma manual_escalation_is_not_recorded_witness :
  ∃ r w',
    escalate_ticket 1 (world_open_with [false; true]) = (r, w')
    ∧ history (db w') = []
    ∧ outbox (db w') = [].
Proof.
  destruct (manual_escalation_is_not_recorded 1 ticket_open
              (world_open_with [false; true]) eq_refl eq_refl)
    as (r & w' & Hrun & Hh & Hout & _).
  exists r, w'. split; [exact Hrun|]. split; [exact Hh | exact Hout].
Defined.

(** X22.  [bulk_update_tickets] writes statuses without going through
    [Ticket.save]: knowledge base, solutions, interactions and entries
    are untouched under every fault plan, also when tickets become
    "resolved".  Empty ids or an absent or empty status give 400 and no
    effect.  A clean run sets the status of exactly the stored tickets
    whose id is listed, and the message counts the ids of the request,
    not the tickets updated. *)
Theorem bulk_update_bypasses_save
    (ids : list Z) (status_val : option string) (w : World) :
  ∃ r w', bulk_update_tickets ids status_val w = (r, w')
    ∧ kb_articles (db w') = kb_articles (db w)
    ∧ solutions (db w') = solutions (db w)
    ∧ interactions (db w') = interactions (db w)
    ∧ history (db w') = history (db w)
    ∧ (ids = [] ∨ status_val = None ∨ status_val = Some "" →
       r = Ok (mkResponse 400
                 [("error", JStr "ticket_ids and status are required.")])
       ∧ w' = w)
    ∧ (∀ s, ids ≠ [] → status_val = Some s → s ≠ "" → pending w = [] →
       r = Ok (mkResponse 200
                 [("message",
                   JStr ("Updated " +:+ pretty (length ids) +:+ " tickets to "
                         +:+ s +:+ "."))])
       ∧ (∀ k t, tickets (db w) !! k = Some t →
                 tickets (db w') !! k
                 = Some (if bool_decide (ticket_id t ∈ ids)
                         then with_status s t else t))
       ∧ (∀ k, tickets (db w) !! k = None → tickets (db w') !! k = None)).
Proof.
  unfold bulk_update_tickets.
  assert (H400 :
    (ids = [] ∨ status_val = None ∨ status_val = Some "") →
    ∃ r w', (mret (mkResponse 400
                [("error", JStr "ticket_ids and status are required.")])
             : M Response) w = (r, w')
      ∧ kb_articles (db w') = kb_articles (db w)
      ∧ solutions (db w') = solutions (db w)
      ∧ interactions (db w') = interactions (db w)
      ∧ history (db w') = history (db w)
      ∧ (ids = [] ∨ status_val = None ∨ status_val = Some "" →
         r = Ok (mkResponse 400
                   [("error", JStr "ticket_ids and status are required.")])
         ∧ w' = w)
      ∧ (∀ s, ids ≠ [] → status_val = Some s → s ≠ "" → pending w = [] →
         r = Ok (mkResponse 200
                   [("message",
                     JStr ("Updated " +:+ pretty (length ids)
                           +:+ " tickets to " +:+ s +:+ "."))])
         ∧ (∀ k t, tickets (db w) !! k = Some t →
                   tickets (db w') !! k
                   = Some (if bool_decide (ticket_id t ∈ ids)
                           then with_status s t else t))
         ∧ (∀ k, tickets (db w) !! k = None → tickets (db w') !! k = None))).
  { intros Hbad. eexists _, _. split; [reflexivity|].
    split; [reflexivity|]. split; [reflexivity|]. split; [reflexivity|].
    split; [reflexivity|]. split; [done|].
    intros s Hne Hs Hs'. destruct Hbad as [?|[?|?]]; congruence. }
  case_bool_decide as Hids; simpl.
  2: { apply H400. left. exact Hids. }
  destruct status_val as [s|]; simpl.
  2: { apply H400. right. by left. }
  destruct (String.eqb_spec s "") as [->|Hs]; simpl.
  { apply H400. right. by right. }
  rewrite run_bind, run_write.
  destruct (hd false (pending w)) eqn:H1.
  { eexists _, _. split; [reflexivity|]. simpl.
    split; [reflexivity|]. split; [reflexivity|]. split; [reflexivity|].
    split; [reflexivity|]. split; [intros [?|[?|[= ->]]]; done|].
    intros s' _ _ _ Hp. rewrite Hp in H1. discriminate. }
  rewrite run_ret. eexists _, _. split; [reflexivity|]. simpl.
  split; [reflexivity|]. split; [reflexivity|]. split; [reflexivity|].
  split; [reflexivity|]. split; [intros [?|[?|[= ->]]]; done|].
  intros s' _ [= <-] _ _. split; [reflexivity|]. split.
  - intros k t Hk. by rewrite lookup_fmap, Hk.
  - intros k Hk. by rewrite lookup_fmap, Hk.
Qed.
